(** * Identity-bound QUIC transport: TLS identity chain, dial verifier,
      connection manager.

    A shallow embedding of [crypto.go] (generateConfig, getRemotePubKey,
    keyToCertificate) and of the transport facade (connManager,
    NewTransport, transport.Dial), with the Go standard library, the
    libp2p key library and the QUIC library as a record of operations
    the code is parametric in. *)

From Stdlib Require Import ZArith List Lia Bool.
From Stdlib.Strings Require Import Byte.
From stdpp Require Import base gmap strings list.

Local Open Scope Z_scope.
Local Open Scope string_scope.

(** ** Errors and fallible results *)

(** A Go [error] value is identified with its message. *)
Definition error := string.

Inductive result (A : Type) : Type :=
| Ok (a : A)
| Err (e : error).
Arguments Ok {A} a.
Arguments Err {A} e.

Definition bytes := list Byte.byte.

(** ** Time *)

(** [time.Time] as Unix nanoseconds, [time.Duration] as a nanosecond count. *)
Definition Time := Z.
Definition Duration := Z.

Definition Nanosecond : Duration := 1.
Definition Microsecond : Duration := 1000 * Nanosecond.
Definition Millisecond : Duration := 1000 * Microsecond.
Definition Second : Duration := 1000 * Millisecond.
Definition Minute : Duration := 60 * Second.
Definition Hour : Duration := 60 * Minute.

Definition time_Add (t : Time) (d : Duration) : Time := t + d.

(** X.509 validity fields carry whole seconds. *)
Definition truncSecond (t : Time) : Time := t / Second * Second.

(** ** Constants of crypto.go *)

Definition hostname : string := "quic.ipfs".

Definition certValidityPeriod : Duration := 180 * 24 * Hour.

(** ** Keys *)

(** [pb.KeyType] is an int32 enumeration. *)
Definition KeyType := Z.
Definition KeyType_RSA : KeyType := 0.
Definition KeyType_Ed25519 : KeyType := 1.
Definition KeyType_Secp256k1 : KeyType := 2.
Definition KeyType_ECDSA : KeyType := 3.

(** [pb.PrivateKey]: the typed envelope a libp2p private key serialises to. *)
Record pb_PrivateKey : Type := {
  pb_Type : KeyType;
  pb_Data : bytes
}.

(** libp2p keys ([ic.PrivKey], [ic.PubKey]): a kind and the raw key bytes. *)
Record ic_PrivKey : Type := { sk_kind : KeyType; sk_raw : bytes }.
Record ic_PubKey : Type := { pk_kind : KeyType; pk_raw : bytes }.

(** [peer.ID]: an opaque byte string. *)
Definition peer_ID := bytes.

Record rsa_PublicKey : Type := { rsa_N : Z; rsa_E : Z }.
Record rsa_PrivateKey : Type := { rsa_Public : rsa_PublicKey; rsa_D : Z }.

Inductive Curve : Type := P224 | P256 | P384 | P521.

Record ecdsa_PublicKey : Type := { ec_Curve : Curve; ec_X : Z; ec_Y : Z }.
Record ecdsa_PrivateKey : Type := { ecdsa_Public : ecdsa_PublicKey; ec_D : Z }.

(** The dynamic type of the [interface{}] held by [Certificate.PublicKey]. *)
Inductive PublicKey : Type :=
| PubRSA (k : rsa_PublicKey)        (* *rsa.PublicKey *)
| PubEd25519 (k : bytes)            (* ed25519.PublicKey *)
| PubECDSA (k : ecdsa_PublicKey)    (* *ecdsa.PublicKey *)
| PubDSA (y : Z)                    (* *dsa.PublicKey *)
| PubNil.                           (* nil: algorithm unknown to x509 *)

(** What [%T] prints for each of them. *)
Definition type_name (k : PublicKey) : string :=
  match k with
  | PubRSA _ => "*rsa.PublicKey"
  | PubEd25519 _ => "ed25519.PublicKey"
  | PubECDSA _ => "*ecdsa.PublicKey"
  | PubDSA _ => "*dsa.PublicKey"
  | PubNil => "<nil>"
  end.

(** [crypto.Signer]: the private keys the code signs with. *)
Inductive Signer : Type :=
| SignRSA (k : rsa_PrivateKey)
| SignEd25519 (k : bytes)
| SignECDSA (k : ecdsa_PrivateKey).

(** ** Certificates and TLS configuration *)

(** The fields of [x509.Certificate] the code reads or sets; a template is
    a certificate whose other fields hold Go's zero values. *)
Record Certificate : Type := {
  Raw : bytes;
  SerialNumber : Z;
  NotBefore : Time;
  NotAfter : Time;
  IsCA : bool;
  BasicConstraintsValid : bool;
  DNSNames : list string;
  EmailAddresses : list string;
  IPAddresses : list bytes;
  URIs : list string;
  CertPublicKey : PublicKey
}.

Definition validity (c : Certificate) : Time * Time := (NotBefore c, NotAfter c).

Inductive ClientAuthType : Type :=
| NoClientCert
| RequestClientCert
| RequireAnyClientCert
| VerifyClientCertIfGiven
| RequireAndVerifyClientCert.

Record tls_Certificate : Type := {
  Certificate_chain : list bytes;    (* tls.Certificate.Certificate *)
  PrivateKey : Signer
}.

(** [VerifyPeerCertificate]: a closure over the raw certificates; the
    variable it captures and assigns ([remotePubKey] in [Dial]) is passed
    in and out. *)
Definition Verifier : Type :=
  list bytes -> option ic_PubKey -> option error * option ic_PubKey.

Record tls_Config : Type := {
  ServerName : string;
  InsecureSkipVerify : bool;
  ClientAuth : ClientAuthType;
  Certificates : list tls_Certificate;
  VerifyPeerCertificate : option Verifier
}.

(** ** Addresses, sockets and the world the code runs in *)

Definition Multiaddr := string.

Record UDPAddr : Type := { IP : string; Port : Z }.

(** A [quic.Session], by identity. *)
Definition quic_Session := nat.

(** Modelled from the spec: the reuseConn object of reuse.go, which is not
    among the sources. "A refcounted handle around a bound UDP socket.
    Attributes: local address, reference count, membership flag (global or
    ephemeral)"; "an ephemeral ReuseConn is closed and removed when count
    reaches zero". *)
Record reuseConn_state : Type := {
  laddr : UDPAddr;
  refCount : Z;
  isGlobal : bool;
  closed : bool
}.

#[global] Instance reuseConn_state_inhabited : Inhabited reuseConn_state :=
  populate {| laddr := {| IP := ""; Port := 0 |}; refCount := 0;
              isGlobal := false; closed := false |}.

(** Pointers: a [*reuseConn] and a [*reuse] are addresses of objects. *)
Definition reuseConn := nat.
Definition reuse := nat.

Record World : Type := {
  ticks : nat;                          (* calls of time.Now made so far *)
  draws : nat;                          (* uses of rand.Reader made so far *)
  reuses : nat;                         (* reuse registries allocated so far *)
  conns : gmap nat reuseConn_state;     (* the reuseConn objects (UDP sockets) *)
  watchers : list (quic_Session * reuseConn)
                                        (* goroutines waiting on a session's end *)
}.

Definition set_ticks (n : nat) (w : World) : World :=
  {| ticks := n; draws := draws w; reuses := reuses w; conns := conns w;
     watchers := watchers w |}.
Definition set_draws (n : nat) (w : World) : World :=
  {| ticks := ticks w; draws := n; reuses := reuses w; conns := conns w;
     watchers := watchers w |}.
Definition set_reuses (n : nat) (w : World) : World :=
  {| ticks := ticks w; draws := draws w; reuses := n; conns := conns w;
     watchers := watchers w |}.
Definition set_conns (c : gmap nat reuseConn_state) (w : World) : World :=
  {| ticks := ticks w; draws := draws w; reuses := reuses w; conns := c;
     watchers := watchers w |}.
Definition set_watchers (l : list (quic_Session * reuseConn)) (w : World) : World :=
  {| ticks := ticks w; draws := draws w; reuses := reuses w; conns := conns w;
     watchers := l |}.

(** ** The state-and-error monad of the effectful functions *)

Definition M (A : Type) : Type := World -> result A * World.

Definition ret {A} (a : A) : M A := fun w => (Ok a, w).

Definition fail {A} (e : error) : M A := fun w => (Err e, w).

Definition bind {A B} (c : M A) (k : A -> M B) : M B :=
  fun w => match c w with
           | (Ok a, w1) => k a w1
           | (Err e, w1) => (Err e, w1)
           end.

(** A library call that returns [(value, err)] and touches nothing else. *)
Definition lift {A} (r : result A) : M A := fun w => (r, w).

Declare Scope go_scope.
Delimit Scope go_scope with go.
Notation "'let*' x ':=' c 'in' k" := (bind c (fun x => k))
  (at level 10, x pattern, c at level 100, k at level 200) : go_scope.
Local Open Scope go_scope.

(** ** The libraries the code calls

    Operations given [rand.Reader] are indexed by the number of uses of it
    so far, the clock by the number of readings so far. *)
Record Lib : Type := {
  (* time, crypto/rand, crypto/ecdsa, crypto/ed25519 *)
  time_Now : nat -> Time;
  rand_Int : nat -> Z -> result Z;
  ecdsa_GenerateKey : nat -> Curve -> result ecdsa_PrivateKey;
  ed25519_Public : bytes -> bytes;
  (* crypto/x509 *)
  x509_CreateCertificate :
    nat -> Certificate -> Certificate -> PublicKey -> Signer -> result bytes;
  x509_ParseCertificate : bytes -> result Certificate;
  x509_ParsePKCS1PrivateKey : bytes -> result rsa_PrivateKey;
  x509_MarshalPKIXPublicKey : rsa_PublicKey -> result bytes;
  (* c.Verify(x509.VerifyOptions{Roots: roots}), nil on success *)
  x509_Verify : Certificate -> list Certificate -> option error;
  (* the signature on the certificate checks under the public key *)
  x509_CheckSignature : Certificate -> PublicKey -> bool;
  (* libp2p keys and peer identities, protobuf *)
  PrivKey_Bytes : ic_PrivKey -> result bytes;
  proto_Unmarshal : bytes -> result pb_PrivateKey;
  ic_UnmarshalRsaPublicKey : bytes -> result ic_PubKey;
  ic_UnmarshalEd25519PublicKey : bytes -> result ic_PubKey;
  peer_IDFromPrivateKey : ic_PrivKey -> result peer_ID;
  peer_MatchesPublicKey : peer_ID -> ic_PubKey -> bool;
  (* addresses *)
  manet_DialArgs : Multiaddr -> result (string * string);
  net_ResolveUDPAddr : string -> string -> result UDPAddr;
  fromQuicMultiaddr : Multiaddr -> result UDPAddr;
  toQuicMultiaddr : UDPAddr -> result Multiaddr;
  (* the socket reuse layer (reuse.go) *)
  reuse_Listen : reuse -> string -> UDPAddr -> M reuseConn;
  reuse_Dial : reuse -> string -> UDPAddr -> M reuseConn
}.

Definition Signer_Public (L : Lib) (s : Signer) : PublicKey :=
  match s with
  | SignRSA k => PubRSA (rsa_Public k)
  | SignEd25519 k => PubEd25519 (ed25519_Public L k)
  | SignECDSA k => PubECDSA (ecdsa_Public k)
  end.

Section Crypto.

Variable L : Lib.

(** [time.Now()] *)
Definition now : M Time :=
  fun w => (Ok (time_Now L (ticks w)), set_ticks (S (ticks w)) w).

(** A call [f(rand.Reader, ...)]. *)
Definition with_rand {A} (f : nat -> result A) : M A :=
  fun w => (f (draws w), set_draws (S (draws w)) w).

(** *** crypto.go: keyToCertificate *)

Definition keyToCertificate (sk : ic_PrivKey) : M (Signer * Certificate) :=
  let* sn := with_rand (fun n => rand_Int L n (Z.shiftl 1 62)) in
  let* notBefore := now in
  let* notAfter := now in
  let tmpl := {| Raw := [];
                 SerialNumber := sn;
                 NotBefore := time_Add notBefore (-24 * Hour);
                 NotAfter := time_Add notAfter certValidityPeriod;
                 IsCA := true;
                 BasicConstraintsValid := true;
                 DNSNames := []; EmailAddresses := []; IPAddresses := [];
                 URIs := []; CertPublicKey := PubNil |} in
  let* keyBytes := lift (PrivKey_Bytes L sk) in
  let* pbmes := lift (proto_Unmarshal L keyBytes) in
  let* keys :=
    if (pb_Type pbmes =? KeyType_RSA)%Z then
      let* k := lift (x509_ParsePKCS1PrivateKey L (pb_Data pbmes)) in
      ret (PubRSA (rsa_Public k), SignRSA k)
    else if (pb_Type pbmes =? KeyType_Ed25519)%Z then
      let privateKey := SignEd25519 (pb_Data pbmes) in
      ret (Signer_Public L privateKey, privateKey)
    else fail "unsupported key type for TLS" in
  let '(publicKey, privateKey) := keys in
  let* certDER :=
    with_rand (fun n => x509_CreateCertificate L n tmpl tmpl publicKey privateKey) in
  let* cert := lift (x509_ParseCertificate L certDER) in
  ret (privateKey, cert).

(** *** crypto.go: generateConfig *)

Definition generateConfig (privKey : ic_PrivKey) : M tls_Config :=
  let* kc := keyToCertificate privKey in
  let '(key, hostCert) := kc in
  let* ephemeralKey := with_rand (fun n => ecdsa_GenerateKey L n P256) in
  let* notBefore := now in
  let* notAfter := now in
  let certTemplate := {| Raw := [];
                         SerialNumber := 1;
                         NotBefore := time_Add notBefore (-24 * Hour);
                         NotAfter := time_Add notAfter certValidityPeriod;
                         IsCA := false;
                         BasicConstraintsValid := false;
                         DNSNames := [hostname];
                         EmailAddresses := []; IPAddresses := []; URIs := [];
                         CertPublicKey := PubNil |} in
  let* certDER :=
    with_rand (fun n => x509_CreateCertificate L n certTemplate hostCert
                          (PubECDSA (ecdsa_Public ephemeralKey)) key) in
  let* cert := lift (x509_ParseCertificate L certDER) in
  ret {| ServerName := hostname;
         InsecureSkipVerify := true;
         ClientAuth := RequireAnyClientCert;
         Certificates := [ {| Certificate_chain := [Raw cert; Raw hostCert];
                              PrivateKey := SignECDSA ephemeralKey |} ];
         VerifyPeerCertificate := None |}.

(** *** crypto.go: getRemotePubKey *)

Definition getRemotePubKey (chain : list Certificate) : result ic_PubKey :=
  if negb (length chain =? 2)%nat then
    Err "expected 2 certificates in the chain"
  else
    match chain with
    | [ephemeral; host] =>
        let pool := [host] in
        match x509_Verify L ephemeral pool with
        | Some err => Err err
        | None =>
            match CertPublicKey host with
            | PubRSA remotePubKey =>
                match x509_MarshalPKIXPublicKey L remotePubKey with
                | Err err => Err err
                | Ok remotePubKeyPKIX => ic_UnmarshalRsaPublicKey L remotePubKeyPKIX
                end
            | PubEd25519 remotePubKey => ic_UnmarshalEd25519PublicKey L remotePubKey
            | remotePubKey => Err ("unknown key type: " ++ type_name remotePubKey)
            end
        end
    | _ => Err "expected 2 certificates in the chain"
    end.

End Crypto.

(** ** The socket reuse layer, as far as the transport uses it *)

(** Modelled from the spec: newReuse of reuse.go, which is not among the
    sources: a new, empty per-family registry. *)
Definition newReuse : M reuse :=
  fun w => (Ok (reuses w), set_reuses (S (reuses w)) w).

(** Modelled from the spec: reuseConn.DecreaseCount of reuse.go, which is
    not among the sources. The count drops by one; "when the count of an
    ephemeral ReuseConn reaches zero, the socket is closed"; "global
    ReuseConns are never removed". *)
Definition DecreaseCount (c : reuseConn) : M unit :=
  fun w =>
    let st := conns w !!! c in
    let n := refCount st - 1 in
    (Ok tt,
     set_conns (<[c := {| laddr := laddr st;
                          refCount := n;
                          isGlobal := isGlobal st;
                          closed := closed st || (negb (isGlobal st) && (n =? 0)%Z) |}]>
                  (conns w)) w).

Definition GetCount (c : reuseConn) (w : World) : Z := refCount (conns w !!! c).

(** [pconn.LocalAddr()] *)
Definition LocalAddr (c : reuseConn) : M UDPAddr :=
  fun w => (Ok (laddr (conns w !!! c)), w).

(** ** The QUIC handshake

    What the remote end, the network and the context contribute to one
    [quic.DialContext]: either the attempt ends before a certificate of the
    peer is processed (unreachable, timeout, cancellation), or the peer
    presents raw certificates and, when they are accepted, the handshake
    ends with [fin]. *)
Inductive Handshake : Type :=
| HandshakeFails (err : error)
| PeerPresents (rawCerts : list bytes) (fin : result quic_Session).

(** [quic.DialContext], by the contract of crypto/tls for a configuration
    with [InsecureSkipVerify]: [VerifyPeerCertificate], when set, is called
    once with the peer's raw certificates, and a non-nil error from it
    aborts the handshake. [report] is how the library words that error. *)
Definition quic_DialContext (report : error -> error) (net : Handshake)
    (tlsConf : tls_Config) (captured : option ic_PubKey)
  : result quic_Session * option ic_PubKey :=
  match net with
  | HandshakeFails err => (Err err, captured)
  | PeerPresents rawCerts fin =>
      match VerifyPeerCertificate tlsConf with
      | None => (fin, captured)
      | Some verify =>
          match verify rawCerts captured with
          | (Some err, captured') => (Err (report err), captured')
          | (None, captured') => (fin, captured')
          end
      end
  end.

(** ** transport.go *)

Record connManager : Type := {
  reuseUDP4 : reuse;
  reuseUDP6 : reuse
}.

Record transport : Type := {
  privKey : ic_PrivKey;
  localPeer : peer_ID;
  tlsConf : tls_Config;
  transport_connManager : connManager
}.

(** The [conn] that [Dial] returns (conn.go declares it). *)
Record conn : Type := {
  sess : quic_Session;
  conn_transport : transport;
  conn_privKey : ic_PrivKey;
  conn_localPeer : peer_ID;
  localMultiaddr : Multiaddr;
  remotePubKey : option ic_PubKey;
  remotePeerID : peer_ID;
  remoteMultiaddr : Multiaddr
}.

(** [tlsConf.Clone()] followed by the assignment of the callback. *)
Definition with_VerifyPeerCertificate (c : tls_Config) (v : Verifier) : tls_Config :=
  {| ServerName := ServerName c;
     InsecureSkipVerify := InsecureSkipVerify c;
     ClientAuth := ClientAuth c;
     Certificates := Certificates c;
     VerifyPeerCertificate := Some v |}.

Section Transport.

Variable L : Lib.

(** How the QUIC library words a certificate error of the callback. *)
Variable report : error -> error.

Definition newConnManager : M connManager :=
  let* r4 := newReuse in
  let* r6 := newReuse in
  ret {| reuseUDP4 := r4; reuseUDP6 := r6 |}.

Definition getReuse (c : connManager) (network : string) : result reuse :=
  if decide (network = "udp4") then Ok (reuseUDP4 c)
  else if decide (network = "udp6") then Ok (reuseUDP6 c)
  else Err "invalid network: must be either udp4 or udp6".

Definition connManager_Listen (c : connManager) (network : string)
    (laddr : UDPAddr) : M reuseConn :=
  let* reuse := lift (getReuse c network) in
  reuse_Listen L reuse network laddr.

Definition connManager_Dial (c : connManager) (network : string)
    (raddr : UDPAddr) : M reuseConn :=
  let* reuse := lift (getReuse c network) in
  reuse_Dial L reuse network raddr.

Definition NewTransport (key : ic_PrivKey) : M transport :=
  let* localPeer := lift (peer_IDFromPrivateKey L key) in
  let* tlsConf := generateConfig L key in
  let* cm := newConnManager in
  ret {| privKey := key;
         localPeer := localPeer;
         tlsConf := tlsConf;
         transport_connManager := cm |}.

(** The loop of the callback: parse every raw certificate, in order,
    stopping at the first that does not parse. *)
Fixpoint parseChain (rawCerts : list bytes) : result (list Certificate) :=
  match rawCerts with
  | [] => Ok []
  | raw :: rest =>
      match x509_ParseCertificate L raw with
      | Err err => Err err
      | Ok cert =>
          match parseChain rest with
          | Err err => Err err
          | Ok chain => Ok (cert :: chain)
          end
      end
  end.

(** The [VerifyPeerCertificate] closure of [Dial]; [remotePubKey] is the
    variable of [Dial] it assigns. *)
Definition dialVerifier (p : peer_ID) : Verifier :=
  fun rawCerts remotePubKey =>
    match parseChain rawCerts with
    | Err err => (Some err, remotePubKey)
    | Ok chain =>
        match getRemotePubKey L chain with
        | Err err => (Some err, None)
        | Ok k =>
            if negb (peer_MatchesPublicKey L p k)
            then (Some "peer IDs don't match", Some k)
            else (None, Some k)
        end
    end.

(** [go func() { <-sess.Context().Done(); pconn.DecreaseCount() }()] *)
Definition go_release_on_done (s : quic_Session) (pconn : reuseConn) : M unit :=
  fun w => (Ok tt, set_watchers (watchers w ++ [(s, pconn)]) w).

Definition Dial (t : transport) (net : Handshake) (raddr : Multiaddr)
    (p : peer_ID) : M conn :=
  let* nh := lift (manet_DialArgs L raddr) in
  let '(network, host) := nh in
  let* udpAddr := lift (net_ResolveUDPAddr L network host) in
  let* addr := lift (fromQuicMultiaddr L raddr) in
  let remotePubKey0 : option ic_PubKey := None in
  let tlsConf := with_VerifyPeerCertificate (tlsConf t) (dialVerifier p) in
  let* pconn := connManager_Dial (transport_connManager t) network udpAddr in
  let* local := LocalAddr pconn in
  match toQuicMultiaddr L local with
  | Err err => let* _ := DecreaseCount pconn in fail err
  | Ok localMultiaddr =>
      let '(dialed, remotePubKey1) :=
        quic_DialContext report net tlsConf remotePubKey0 in
      match dialed with
      | Err err => let* _ := DecreaseCount pconn in fail err
      | Ok sess =>
          let* _ := go_release_on_done sess pconn in
          ret {| sess := sess;
                 conn_transport := t;
                 conn_privKey := privKey t;
                 conn_localPeer := localPeer t;
                 localMultiaddr := localMultiaddr;
                 remotePubKey := remotePubKey1;
                 remotePeerID := p;
                 remoteMultiaddr := raddr |}
      end
  end.

End Transport.

(** ** What is assumed of the libraries *)

(** The certificate that parsing the output of [x509.CreateCertificate]
    yields, on the fields modelled: the template's serial number, names and
    validity (to the second), the basic constraints when the template
    declares them valid, and the subject public key that was passed. *)
Definition issue (tmpl : Certificate) (pub : PublicKey) (der : bytes) : Certificate :=
  {| Raw := der;
     SerialNumber := SerialNumber tmpl;
     NotBefore := truncSecond (NotBefore tmpl);
     NotAfter := truncSecond (NotAfter tmpl);
     IsCA := BasicConstraintsValid tmpl && IsCA tmpl;
     BasicConstraintsValid := BasicConstraintsValid tmpl;
     DNSNames := DNSNames tmpl;
     EmailAddresses := EmailAddresses tmpl;
     IPAddresses := IPAddresses tmpl;
     URIs := URIs tmpl;
     CertPublicKey := pub |}.

(** crypto/x509: a created certificate parses back to what was asked for,
    and its signature checks under the public half of the signing key. *)
Definition x509_faithful (L : Lib) : Prop :=
  forall n tmpl parent pub priv der,
    x509_CreateCertificate L n tmpl parent pub priv = Ok der ->
    x509_ParseCertificate L der = Ok (issue tmpl pub der) /\
    x509_CheckSignature L (issue tmpl pub der) (Signer_Public L priv) = true.

(** crypto/rand: [rand.Int(rand.Reader, max)] lies in [0, max). *)
Definition rand_in_range (L : Lib) : Prop :=
  forall n max r, 0 < max -> rand_Int L n max = Ok r -> 0 <= r < max.

(** The signing key [keyToCertificate] derives from a host key whose
    envelope is [pbmes]. *)
Definition hostSigner (L : Lib) (pbmes : pb_PrivateKey) (key : Signer) : Prop :=
  (pb_Type pbmes = KeyType_RSA /\
   exists k, x509_ParsePKCS1PrivateKey L (pb_Data pbmes) = Ok k /\ key = SignRSA k)
  \/ (pb_Type pbmes = KeyType_Ed25519 /\ key = SignEd25519 (pb_Data pbmes)).

(** The templates the two certificates are created from, in a world [w]
    at the time of the first clock reading for each. *)
Definition hostTemplate (L : Lib) (w : World) (sn : Z) : Certificate :=
  {| Raw := [];
     SerialNumber := sn;
     NotBefore := time_Now L (ticks w) - 24 * Hour;
     NotAfter := time_Now L (S (ticks w)) + 180 * 24 * Hour;
     IsCA := true;
     BasicConstraintsValid := true;
     DNSNames := []; EmailAddresses := []; IPAddresses := []; URIs := [];
     CertPublicKey := PubNil |}.

Definition ephemeralTemplate (L : Lib) (w : World) : Certificate :=
  {| Raw := [];
     SerialNumber := 1;
     NotBefore := time_Now L (ticks w) - 24 * Hour;
     NotAfter := time_Now L (S (ticks w)) + 180 * 24 * Hour;
     IsCA := false;
     BasicConstraintsValid := false;
     DNSNames := [hostname];
     EmailAddresses := []; IPAddresses := []; URIs := [];
     CertPublicKey := PubNil |}.

(** The world after [n] more clock readings and [m] more uses of the
    random source. *)
Definition advance (n m : nat) (w : World) : World :=
  {| ticks := n + ticks w; draws := m + draws w; reuses := reuses w;
     conns := conns w; watchers := watchers w |}.

(** The kind of a host key, as [keyToCertificate] finds it out. *)
Definition keyKind (L : Lib) (sk : ic_PrivKey) (t : KeyType) : Prop :=
  exists keyBytes pbmes,
    PrivKey_Bytes L sk = Ok keyBytes /\
    proto_Unmarshal L keyBytes = Ok pbmes /\
    pb_Type pbmes = t.

(** ** Decidable equality of the data *)

#[global] Instance byte_eq_decision : EqDecision byte := byte_eq_dec.
#[global] Instance rsa_PublicKey_eq_dec : EqDecision rsa_PublicKey.
Proof. solve_decision. Defined.
#[global] Instance rsa_PrivateKey_eq_dec : EqDecision rsa_PrivateKey.
Proof. solve_decision. Defined.
#[global] Instance Curve_eq_dec : EqDecision Curve.
Proof. solve_decision. Defined.
#[global] Instance ecdsa_PublicKey_eq_dec : EqDecision ecdsa_PublicKey.
Proof. solve_decision. Defined.
#[global] Instance ecdsa_PrivateKey_eq_dec : EqDecision ecdsa_PrivateKey.
Proof. solve_decision. Defined.
#[global] Instance PublicKey_eq_dec : EqDecision PublicKey.
Proof. solve_decision. Defined.
#[global] Instance Signer_eq_dec : EqDecision Signer.
Proof. solve_decision. Defined.
#[global] Instance Certificate_eq_dec : EqDecision Certificate.
Proof. solve_decision. Defined.
#[global] Instance UDPAddr_eq_dec : EqDecision UDPAddr.
Proof. solve_decision. Defined.
#[global] Instance ic_PubKey_eq_dec : EqDecision ic_PubKey.
Proof. solve_decision. Defined.

(** ** A mock of the libraries

    One Ed25519 host, a clock that passes a second boundary between the two
    certificates, an x509 that issues the two certificates of that host,
    one loopback address, one socket per registry. *)
Module Mock.

Definition hostPriv : bytes := ["001"; "002"; "161"; "162"]%byte.

Definition hostKey : ic_PrivKey :=
  {| sk_kind := KeyType_Ed25519; sk_raw := hostPriv |}.

(** A key of a kind the transport does not support. *)
Definition ecdsaKey : ic_PrivKey :=
  {| sk_kind := KeyType_ECDSA; sk_raw := ["009"]%byte |}.

Definition edPublic (k : bytes) : bytes := drop (length k / 2) k.

Definition hostPub : PublicKey := PubEd25519 (edPublic hostPriv).

Definition signerPublic (s : Signer) : PublicKey :=
  match s with
  | SignRSA k => PubRSA (rsa_Public k)
  | SignEd25519 k => PubEd25519 (edPublic k)
  | SignECDSA k => PubECDSA (ecdsa_Public k)
  end.

(** Readings of the clock: two within one second, two within the next. *)
Definition clock (n : nat) : Time :=
  match n with
  | 0%nat => 1561000000 * Second + 999000 * Microsecond
  | 1%nat => 1561000000 * Second + 999001 * Microsecond
  | 2%nat => 1561000001 * Second + 200000 * Microsecond
  | _ => 1561000001 * Second + 200001 * Microsecond
  end.

Definition randInt (n : nat) (max : Z) : result Z :=
  if (0 <? max)%Z then Ok ((4242 + Z.of_nat n) mod max) else Err "rand: bad bound".

Definition generateKey (n : nat) (c : Curve) : result ecdsa_PrivateKey :=
  Ok {| ecdsa_Public := {| ec_Curve := c; ec_X := 7 + Z.of_nat n; ec_Y := 11 |};
        ec_D := 5 |}.

Definition ephemeralPub : PublicKey :=
  PubECDSA {| ec_Curve := P256; ec_X := 9; ec_Y := 11 |}.

Definition hostCert : Certificate :=
  {| Raw := ["001"]%byte;
     SerialNumber := 4242;
     NotBefore := 1561000000 * Second - 24 * Hour;
     NotAfter := 1561000000 * Second + 180 * 24 * Hour;
     IsCA := true;
     BasicConstraintsValid := true;
     DNSNames := []; EmailAddresses := []; IPAddresses := []; URIs := [];
     CertPublicKey := hostPub |}.

Definition ephemeralCert : Certificate :=
  {| Raw := ["002"]%byte;
     SerialNumber := 1;
     NotBefore := 1561000001 * Second - 24 * Hour;
     NotAfter := 1561000001 * Second + 180 * 24 * Hour;
     IsCA := false;
     BasicConstraintsValid := false;
     DNSNames := ["quic.ipfs"]; EmailAddresses := []; IPAddresses := []; URIs := [];
     CertPublicKey := ephemeralPub |}.

(** A host certificate with an ECDSA key, as a peer with such a key would
    present it. *)
Definition ecdsaHostCert : Certificate :=
  {| Raw := ["003"]%byte;
     SerialNumber := 77;
     NotBefore := 1561000000 * Second - 24 * Hour;
     NotAfter := 1561000000 * Second + 180 * 24 * Hour;
     IsCA := true;
     BasicConstraintsValid := true;
     DNSNames := []; EmailAddresses := []; IPAddresses := []; URIs := [];
     CertPublicKey := PubECDSA {| ec_Curve := P256; ec_X := 21; ec_Y := 22 |} |}.

(** The ephemeral certificate such a peer would present with it. *)
Definition ecdsaEphemeralCert : Certificate :=
  {| Raw := ["004"]%byte;
     SerialNumber := 1;
     NotBefore := 1561000001 * Second - 24 * Hour;
     NotAfter := 1561000001 * Second + 180 * 24 * Hour;
     IsCA := false;
     BasicConstraintsValid := false;
     DNSNames := ["quic.ipfs"]; EmailAddresses := []; IPAddresses := []; URIs := [];
     CertPublicKey := PubECDSA {| ec_Curve := P256; ec_X := 31; ec_Y := 32 |} |}.

(** The x509 of the mock signs with the host key only, and issues the two
    certificates above. *)
Definition createCertificate (n : nat) (tmpl parent : Certificate)
    (pub : PublicKey) (priv : Signer) : result bytes :=
  if bool_decide (signerPublic priv = hostPub) then
    if bool_decide (issue tmpl pub ["001"]%byte = hostCert) then Ok ["001"]%byte
    else if bool_decide (issue tmpl pub ["002"]%byte = ephemeralCert) then Ok ["002"]%byte
    else Err "x509: unsupported template"
  else Err "x509: unsupported signer".

Definition parseCertificate (der : bytes) : result Certificate :=
  if bool_decide (der = ["001"]%byte) then Ok hostCert
  else if bool_decide (der = ["002"]%byte) then Ok ephemeralCert
  else if bool_decide (der = ["003"]%byte) then Ok ecdsaHostCert
  else if bool_decide (der = ["004"]%byte) then Ok ecdsaEphemeralCert
  else Err "x509: malformed certificate".

Definition checkSignature (c : Certificate) (k : PublicKey) : bool :=
  bool_decide (k = hostPub) && (bool_decide (c = hostCert) || bool_decide (c = ephemeralCert)).

Definition verify (c : Certificate) (roots : list Certificate) : option error :=
  if bool_decide (c = ephemeralCert) && bool_decide (roots = [hostCert]) then None
  else if bool_decide (c = ecdsaEphemeralCert) && bool_decide (roots = [ecdsaHostCert])
  then None
  else Some "x509: certificate signed by unknown authority".

(** The envelope of the mock: the kind in one byte, then the key. *)
Definition keyBytes (sk : ic_PrivKey) : result bytes :=
  if (sk_kind sk =? KeyType_RSA)%Z then Ok ("000"%byte :: sk_raw sk)
  else if (sk_kind sk =? KeyType_Ed25519)%Z then Ok ("001"%byte :: sk_raw sk)
  else if (sk_kind sk =? KeyType_Secp256k1)%Z then Ok ("002"%byte :: sk_raw sk)
  else if (sk_kind sk =? KeyType_ECDSA)%Z then Ok ("003"%byte :: sk_raw sk)
  else Err "bad key type".

Definition unmarshal (b : bytes) : result pb_PrivateKey :=
  match b with
  | t :: data =>
      if bool_decide (t = "000"%byte) then Ok {| pb_Type := KeyType_RSA; pb_Data := data |}
      else if bool_decide (t = "001"%byte) then Ok {| pb_Type := KeyType_Ed25519; pb_Data := data |}
      else if bool_decide (t = "002"%byte) then Ok {| pb_Type := KeyType_Secp256k1; pb_Data := data |}
      else if bool_decide (t = "003"%byte) then Ok {| pb_Type := KeyType_ECDSA; pb_Data := data |}
      else Err "proto: bad key type"
  | [] => Err "proto: unexpected EOF"
  end.

(** Peer identities of the mock: the public key bytes themselves. *)
Definition hostID : peer_ID := edPublic hostPriv.
Definition otherID : peer_ID := ["077"]%byte.

Definition theAddr : Multiaddr := "/ip4/127.0.0.1/udp/4001/quic".

Definition socket (n : Z) : reuseConn_state :=
  {| laddr := {| IP := "0.0.0.0"; Port := 4001 |}; refCount := n;
     isGlobal := false; closed := false |}.

(** Every dial of a registry shares the one socket of that registry. *)
Definition reuseDial (r : reuse) (network : string) (raddr : UDPAddr) : M reuseConn :=
  fun w => (Ok r, set_conns (<[r := socket (refCount (conns w !!! r) + 1)]> (conns w)) w).

Definition reuseListen (r : reuse) (network : string) (local : UDPAddr) : M reuseConn :=
  fun w => (Ok r,
            set_conns (<[r := {| laddr := local; refCount := 1; isGlobal := true;
                                 closed := false |}]> (conns w)) w).

Definition lib : Lib :=
  {| time_Now := clock;
     rand_Int := randInt;
     ecdsa_GenerateKey := generateKey;
     ed25519_Public := edPublic;
     x509_CreateCertificate := createCertificate;
     x509_ParseCertificate := parseCertificate;
     x509_ParsePKCS1PrivateKey := fun _ => Err "x509: failed to parse private key";
     x509_MarshalPKIXPublicKey := fun _ => Err "x509: unsupported public key";
     x509_Verify := verify;
     x509_CheckSignature := checkSignature;
     PrivKey_Bytes := keyBytes;
     proto_Unmarshal := unmarshal;
     ic_UnmarshalRsaPublicKey := fun _ => Err "rsa keys not supported";
     ic_UnmarshalEd25519PublicKey :=
       fun b => Ok {| pk_kind := KeyType_Ed25519; pk_raw := b |};
     peer_IDFromPrivateKey := fun sk => Ok (edPublic (sk_raw sk));
     peer_MatchesPublicKey := fun p k => bool_decide (p = pk_raw k);
     manet_DialArgs :=
       fun a => if bool_decide (a = theAddr) then Ok ("udp4", "127.0.0.1:4001")
                else Err "failed to parse multiaddr";
     net_ResolveUDPAddr :=
       fun _ host => if bool_decide (host = "127.0.0.1:4001")
                     then Ok {| IP := "127.0.0.1"; Port := 4001 |}
                     else Err "no such host";
     fromQuicMultiaddr :=
       fun a => if bool_decide (a = theAddr) then Ok {| IP := "127.0.0.1"; Port := 4001 |}
                else Err "failed to parse multiaddr";
     toQuicMultiaddr :=
       fun a => if bool_decide (IP a = "0.0.0.0") then Ok "/ip4/0.0.0.0/udp/4001/quic"
                else Err "not a UDP address";
     reuse_Listen := reuseListen;
     reuse_Dial := reuseDial |}.

Definition world0 : World :=
  {| ticks := 0%nat; draws := 0%nat; reuses := 0%nat; conns := ∅; watchers := [] |}.

Definition report (e : error) : error := "CRYPTO_ERROR: " ++ e.

Definition ephemeralKey : ecdsa_PrivateKey :=
  {| ecdsa_Public := {| ec_Curve := P256; ec_X := 9; ec_Y := 11 |}; ec_D := 5 |}.

(** The TLS configuration of the mock host. *)
Definition config : tls_Config :=
  {| ServerName := "quic.ipfs";
     InsecureSkipVerify := true;
     ClientAuth := RequireAnyClientCert;
     Certificates := [ {| Certificate_chain := [["002"]%byte; ["001"]%byte];
                          PrivateKey := SignECDSA ephemeralKey |} ];
     VerifyPeerCertificate := None |}.

(** The transport of the mock host, and the world once it is built. *)
Definition dialer : transport :=
  {| privKey := hostKey;
     localPeer := hostID;
     tlsConf := config;
     transport_connManager := {| reuseUDP4 := 0%nat; reuseUDP6 := 1%nat |} |}.

Definition world1 : World :=
  {| ticks := 4%nat; draws := 4%nat; reuses := 2%nat; conns := ∅; watchers := [] |}.

(** What a peer with the mock host key presents. *)
Definition hostChain : list bytes := [["002"]%byte; ["001"]%byte].

(** The dial of the mock host by itself: the handshake, the connection
    that results and the world then. *)
Definition handshake : Handshake := PeerPresents hostChain (Ok 7%nat).

Definition dialed : conn :=
  {| sess := 7%nat;
     conn_transport := dialer;
     conn_privKey := hostKey;
     conn_localPeer := hostID;
     localMultiaddr := "/ip4/0.0.0.0/udp/4001/quic";
     remotePubKey := Some {| pk_kind := KeyType_Ed25519; pk_raw := edPublic hostPriv |};
     remotePeerID := hostID;
     remoteMultiaddr := theAddr |}.

Definition world2 : World :=
  {| ticks := 4%nat; draws := 4%nat; reuses := 2%nat;
     conns := {[ 0%nat := socket 1 ]}; watchers := [(7%nat, 0%nat)] |}.

End Mock.

(** ** transport.Listen and the end of a session *)

(** A [tpt.Listener], by identity. *)
Definition tpt_Listener := nat.

Section Listen.

Variable L : Lib.

(** [newListener] of listener.go, which is not among the sources. *)
Variable newListener :
  reuseConn -> transport -> peer_ID -> ic_PrivKey -> tls_Config -> M tpt_Listener.

Definition transport_Listen (t : transport) (addr : Multiaddr) : M tpt_Listener :=
  let* nh := lift (manet_DialArgs L addr) in
  let '(lnet, host) := nh in
  let* laddr := lift (net_ResolveUDPAddr L lnet host) in
  let* conn := connManager_Listen L (transport_connManager t) lnet laddr in
  newListener conn t (localPeer t) (privKey t) (tlsConf t).

End Listen.

(** The context of session [s] is done: every goroutine that [Dial]
    started on it wakes up, runs its [DecreaseCount] and ends; the others
    keep waiting. *)
Definition waits_on (s : quic_Session) (x : quic_Session * reuseConn) : bool :=
  Nat.eqb (fst x) s.

Definition wake (s : quic_Session) (w : World) (x : quic_Session * reuseConn) : World :=
  if waits_on s x then snd (DecreaseCount (snd x) w) else w.

Definition session_done (s : quic_Session) : M unit :=
  fun w =>
    let waiting := watchers w in
    (Ok tt,
     fold_left (wake s) waiting
       (set_watchers (List.filter (fun x => negb (waits_on s x)) waiting) w)).

(** The libp2p public key that [getRemotePubKey] derives from a host
    certificate carrying the public half of the signing key [key]. *)
Definition hostPubKey (L : Lib) (key : Signer) : result ic_PubKey :=
  match key with
  | SignRSA k =>
      match x509_MarshalPKIXPublicKey L (rsa_Public k) with
      | Err err => Err err
      | Ok pkix => ic_UnmarshalRsaPublicKey L pkix
      end
  | SignEd25519 k => ic_UnmarshalEd25519PublicKey L (ed25519_Public L k)
  | SignECDSA _ => Err "unknown key type: *ecdsa.PublicKey"
  end.

(** More of the mock: a listener, and an address that is not UDP. *)
Module MockListen.

Definition tcpAddr : Multiaddr := "/ip4/127.0.0.1/tcp/4001".

Definition lib : Lib :=
  {| time_Now := time_Now Mock.lib;
     rand_Int := rand_Int Mock.lib;
     ecdsa_GenerateKey := ecdsa_GenerateKey Mock.lib;
     ed25519_Public := ed25519_Public Mock.lib;
     x509_CreateCertificate := x509_CreateCertificate Mock.lib;
     x509_ParseCertificate := x509_ParseCertificate Mock.lib;
     x509_ParsePKCS1PrivateKey := x509_ParsePKCS1PrivateKey Mock.lib;
     x509_MarshalPKIXPublicKey := x509_MarshalPKIXPublicKey Mock.lib;
     x509_Verify := x509_Verify Mock.lib;
     x509_CheckSignature := x509_CheckSignature Mock.lib;
     PrivKey_Bytes := PrivKey_Bytes Mock.lib;
     proto_Unmarshal := proto_Unmarshal Mock.lib;
     ic_UnmarshalRsaPublicKey := ic_UnmarshalRsaPublicKey Mock.lib;
     ic_UnmarshalEd25519PublicKey := ic_UnmarshalEd25519PublicKey Mock.lib;
     peer_IDFromPrivateKey := peer_IDFromPrivateKey Mock.lib;
     peer_MatchesPublicKey := peer_MatchesPublicKey Mock.lib;
     manet_DialArgs :=
       fun a => if bool_decide (a = tcpAddr) then Ok ("tcp4", "127.0.0.1:4001")
                else manet_DialArgs Mock.lib a;
     net_ResolveUDPAddr := net_ResolveUDPAddr Mock.lib;
     fromQuicMultiaddr := fromQuicMultiaddr Mock.lib;
     toQuicMultiaddr := toQuicMultiaddr Mock.lib;
     reuse_Listen := reuse_Listen Mock.lib;
     reuse_Dial := reuse_Dial Mock.lib |}.

(** A listener is numbered after the reuseConn it owns. *)
Definition newListener (c : reuseConn) (t : transport) (p : peer_ID)
    (k : ic_PrivKey) (cfg : tls_Config) : M tpt_Listener :=
  fun w => (Ok (100 + c)%nat, w).

End MockListen.

(** * Properties *)

(** ** The monad *)

Lemma bind_Ok_inv {A B} (c : M A) (k : A -> M B) w b w' :
  bind c k w = (Ok b, w') ->
  exists a w1, c w = (Ok a, w1) /\ k a w1 = (Ok b, w').
Proof.
  unfold bind. destruct (c w) as [[a|e] w1]; intros H.
  - exists a, w1. split; [reflexivity | exact H].
  - discriminate H.
Qed.

Lemma bind_Err_inv {A B} (c : M A) (k : A -> M B) w e w' :
  bind c k w = (Err e, w') ->
  c w = (Err e, w') \/ exists a w1, c w = (Ok a, w1) /\ k a w1 = (Err e, w').
Proof.
  unfold bind. destruct (c w) as [[a|e0] w1]; intros H.
  - right. exists a, w1. split; [reflexivity | exact H].
  - left. inversion H. reflexivity.
Qed.

Lemma bind_step {A B} (c : M A) (k : A -> M B) w a w1 :
  c w = (Ok a, w1) -> bind c k w = k a w1.
Proof. unfold bind. intros ->. reflexivity. Qed.

Lemma bind_stop {A B} (c : M A) (k : A -> M B) w e w1 :
  c w = (Err e, w1) -> bind c k w = (Err e, w1).
Proof. unfold bind. intros ->. reflexivity. Qed.

Lemma shiftl_1_62 : Z.shiftl 1 62 = 2 ^ 62.
Proof. reflexivity. Qed.

(** ** keyToCertificate and generateConfig, step by step *)

Lemma keyToCertificate_Ok L sk w key cert w' :
  keyToCertificate L sk w = (Ok (key, cert), w') ->
  exists sn keyBytes pbmes certDER,
    rand_Int L (draws w) (2 ^ 62) = Ok sn /\
    PrivKey_Bytes L sk = Ok keyBytes /\
    proto_Unmarshal L keyBytes = Ok pbmes /\
    hostSigner L pbmes key /\
    x509_CreateCertificate L (S (draws w)) (hostTemplate L w sn) (hostTemplate L w sn)
      (Signer_Public L key) key = Ok certDER /\
    x509_ParseCertificate L certDER = Ok cert /\
    w' = advance 2 2 w.
Proof.
  unfold keyToCertificate, bind, with_rand, now, lift, ret, fail, time_Add.
  rewrite shiftl_1_62. simpl. intros H.
  destruct (rand_Int L (draws w) (2 ^ 62)) as [sn|] eqn:Esn; [|discriminate H].
  destruct (PrivKey_Bytes L sk) as [keyBytes|] eqn:Ekb; [|discriminate H].
  destruct (proto_Unmarshal L keyBytes) as [pbmes|] eqn:Epb; [|discriminate H].
  exists sn, keyBytes, pbmes.
  destruct (pb_Type pbmes =? KeyType_RSA)%Z eqn:Ersa.
  - destruct (x509_ParsePKCS1PrivateKey L (pb_Data pbmes)) as [k|] eqn:Ek;
      [|discriminate H].
    simpl in H.
    destruct (x509_CreateCertificate L _ _ _ _ _) as [der|] eqn:Eder; [|discriminate H].
    destruct (x509_ParseCertificate L der) as [c|] eqn:Ec; [|discriminate H].
    inversion H; subst. exists der.
    repeat split; try assumption.
    left. split; [apply Z.eqb_eq; exact Ersa | exists k; split; [exact Ek | reflexivity]].
  - destruct (pb_Type pbmes =? KeyType_Ed25519)%Z eqn:Eed; [|discriminate H].
    simpl in H.
    destruct (x509_CreateCertificate L _ _ _ _ _) as [der|] eqn:Eder; [|discriminate H].
    destruct (x509_ParseCertificate L der) as [c|] eqn:Ec; [|discriminate H].
    inversion H; subst. exists der.
    repeat split; try assumption.
    right. split; [apply Z.eqb_eq; exact Eed | reflexivity].
Qed.

Lemma keyToCertificate_other_kind L sk w keyBytes pbmes :
  PrivKey_Bytes L sk = Ok keyBytes ->
  proto_Unmarshal L keyBytes = Ok pbmes ->
  pb_Type pbmes <> KeyType_RSA ->
  pb_Type pbmes <> KeyType_Ed25519 ->
  keyToCertificate L sk w =
    match rand_Int L (draws w) (2 ^ 62) with
    | Ok _ => (Err "unsupported key type for TLS", advance 2 1 w)
    | Err e => (Err e, advance 0 1 w)
    end.
Proof.
  intros Ekb Epb Hrsa Hed.
  unfold keyToCertificate, bind, with_rand, now, lift, ret, fail.
  rewrite shiftl_1_62. simpl.
  destruct (rand_Int L (draws w) (2 ^ 62)) as [sn|e]; [|reflexivity].
  rewrite Ekb, Epb.
  destruct (Z.eqb_spec (pb_Type pbmes) KeyType_RSA) as [E|_]; [contradiction|].
  destruct (Z.eqb_spec (pb_Type pbmes) KeyType_Ed25519) as [E|_]; [contradiction|].
  reflexivity.
Qed.

Lemma generateConfig_Ok L sk w cfg w' :
  generateConfig L sk w = (Ok cfg, w') ->
  exists key hostCert ephemeralKey certDER cert,
    keyToCertificate L sk w = (Ok (key, hostCert), advance 2 2 w) /\
    ecdsa_GenerateKey L (2 + draws w) P256 = Ok ephemeralKey /\
    x509_CreateCertificate L (3 + draws w) (ephemeralTemplate L (advance 2 2 w))
      hostCert (PubECDSA (ecdsa_Public ephemeralKey)) key = Ok certDER /\
    x509_ParseCertificate L certDER = Ok cert /\
    cfg = {| ServerName := hostname;
             InsecureSkipVerify := true;
             ClientAuth := RequireAnyClientCert;
             Certificates := [ {| Certificate_chain := [Raw cert; Raw hostCert];
                                  PrivateKey := SignECDSA ephemeralKey |} ];
             VerifyPeerCertificate := None |} /\
    w' = advance 4 4 w.
Proof.
  unfold generateConfig. intros H.
  apply bind_Ok_inv in H as ([key hostCert] & w1 & Hk & H).
  pose proof (keyToCertificate_Ok _ _ _ _ _ _ Hk) as (_ & _ & _ & _ & _ & _ & _ & _ & _ & _ & ->).
  revert H.
  unfold bind, with_rand, now, lift, ret, time_Add. simpl. intros H.
  destruct (ecdsa_GenerateKey L _ P256) as [ephemeralKey|] eqn:Eek; [|discriminate H].
  destruct (x509_CreateCertificate L _ _ _ _ _) as [der|] eqn:Eder; [|discriminate H].
  destruct (x509_ParseCertificate L der) as [cert|] eqn:Ec; [|discriminate H].
  inversion H; subst.
  exists key, hostCert, ephemeralKey, der, cert.
  repeat split; assumption.
Qed.

Lemma generateConfig_no_host_certificate L sk w e w1 :
  keyToCertificate L sk w = (Err e, w1) ->
  generateConfig L sk w = (Err e, w1).
Proof. intros H. unfold generateConfig. apply bind_stop. exact H. Qed.

(** ** The mock satisfies what is assumed of the libraries *)

Lemma mock_faithful : x509_faithful Mock.lib.
Proof.
  intros n tmpl parent pub priv der. simpl.
  unfold Mock.createCertificate.
  change (Signer_Public Mock.lib priv) with (Mock.signerPublic priv).
  case_bool_decide as Hs; [|discriminate].
  case_bool_decide as Hh.
  - intros [= <-]. rewrite Hh, Hs. split; reflexivity.
  - case_bool_decide as He; [|discriminate].
    intros [= <-]. rewrite He, Hs. split; reflexivity.
Qed.

Lemma mock_rand_in_range : rand_in_range Mock.lib.
Proof.
  intros n max r Hmax. simpl. unfold Mock.randInt.
  destruct (Z.ltb_spec 0 max) as [_|Hle]; [|lia].
  intros [= <-]. apply Z.mod_pos_bound. exact Hmax.
Qed.

(** ** getRemotePubKey *)

Lemma getRemotePubKey_pair L ephemeral host :
  getRemotePubKey L [ephemeral; host] =
    match x509_Verify L ephemeral [host] with
    | Some err => Err err
    | None =>
        match CertPublicKey host with
        | PubRSA k =>
            match x509_MarshalPKIXPublicKey L k with
            | Err err => Err err
            | Ok pkix => ic_UnmarshalRsaPublicKey L pkix
            end
        | PubEd25519 k => ic_UnmarshalEd25519PublicKey L k
        | other => Err ("unknown key type: " ++ type_name other)
        end
    end.
Proof. reflexivity. Qed.

Lemma getRemotePubKey_wrong_length L chain :
  length chain <> 2%nat ->
  getRemotePubKey L chain = Err "expected 2 certificates in the chain".
Proof.
  intros Hlen. unfold getRemotePubKey.
  destruct (Nat.eqb_spec (length chain) 2) as [E|_]; [contradiction|].
  reflexivity.
Qed.

Lemma getRemotePubKey_Ok_pair L chain k :
  getRemotePubKey L chain = Ok k ->
  exists ephemeral host, chain = [ephemeral; host].
Proof.
  intros H.
  destruct chain as [|c0 [|c1 [|c2 rest]]]; try discriminate H.
  exists c0, c1. reflexivity.
Qed.

Lemma getRemotePubKey_ecdsa L chain host k :
  chain !! 1%nat = Some host ->
  CertPublicKey host = PubECDSA k ->
  exists e, getRemotePubKey L chain = Err e /\
    (forall ephemeral, chain = [ephemeral; host] ->
       x509_Verify L ephemeral [host] = None ->
       e = "unknown key type: *ecdsa.PublicKey").
Proof.
  intros Hhost Hk.
  destruct chain as [|c0 [|c1 [|c2 rest]]]; try discriminate Hhost.
  - injection Hhost as ->.
    rewrite getRemotePubKey_pair, Hk.
    destruct (x509_Verify L c0 [host]) as [err|] eqn:Ev.
    + exists err. split; [reflexivity|]. intros ephemeral [= <-] Hv. congruence.
    + eexists. split; [reflexivity|]. intros _ _ _. reflexivity.
  - eexists. split; [apply getRemotePubKey_wrong_length; simpl; lia|].
    intros ephemeral [=].
Qed.

(** C2. getRemotePubKey returns an error for every chain whose length is
    not 2; for a chain of two certificates it returns the error of the
    verification whenever the first certificate does not verify under the
    pool that holds only the second; and it returns a public key only for
    a chain of exactly two certificates whose first verifies under that
    pool. *)
Theorem getRemotePubKey_requires_verified_pair (L : Lib) (chain : list Certificate) :
  (length chain <> 2%nat ->
     getRemotePubKey L chain = Err "expected 2 certificates in the chain") /\
  (forall ephemeral host err,
     chain = [ephemeral; host] ->
     x509_Verify L ephemeral [host] = Some err ->
     getRemotePubKey L chain = Err err) /\
  (forall k,
     getRemotePubKey L chain = Ok k ->
     length chain = 2%nat /\
     exists ephemeral host,
       chain = [ephemeral; host] /\ x509_Verify L ephemeral [host] = None).
Proof.
  split; [apply getRemotePubKey_wrong_length|]. split.
  - intros ephemeral host err -> Hv. rewrite getRemotePubKey_pair, Hv. reflexivity.
  - intros k H.
    destruct (getRemotePubKey_Ok_pair _ _ _ H) as (ephemeral & host & ->).
    split; [reflexivity|]. exists ephemeral, host. split; [reflexivity|].
    rewrite getRemotePubKey_pair in H.
    destruct (x509_Verify L ephemeral [host]); [discriminate H | reflexivity].
Qed.

(** The three parts of C2 on the mock: a chain of one certificate, a chain
    of two that does not verify, and the chain of the mock host. *)
Lemma getRemotePubKey_requires_verified_pair_witness :
  getRemotePubKey Mock.lib [Mock.hostCert] = Err "expected 2 certificates in the chain" /\
  getRemotePubKey Mock.lib [Mock.hostCert; Mock.ephemeralCert] =
    Err "x509: certificate signed by unknown authority" /\
  (length [Mock.ephemeralCert; Mock.hostCert] = 2%nat /\
   exists ephemeral host,
     [Mock.ephemeralCert; Mock.hostCert] = [ephemeral; host] /\
     x509_Verify Mock.lib ephemeral [host] = None).
Proof.
  split; [|split].
  - apply (getRemotePubKey_requires_verified_pair Mock.lib [Mock.hostCert]).
    simpl. lia.
  - apply (getRemotePubKey_requires_verified_pair Mock.lib
             [Mock.hostCert; Mock.ephemeralCert]) with Mock.hostCert Mock.ephemeralCert.
    + reflexivity.
    + vm_compute. reflexivity.
  - apply (getRemotePubKey_requires_verified_pair Mock.lib
             [Mock.ephemeralCert; Mock.hostCert])
      with {| pk_kind := KeyType_Ed25519; pk_raw := Mock.edPublic Mock.hostPriv |}.
    vm_compute. reflexivity.
Defined.

(** C3, as the spec has it, fails: there is no library and no chain whose
    host certificate (the second of the chain) carries an ECDSA public key
    on which getRemotePubKey returns a key. *)
Lemma getRemotePubKey_accepts_no_ecdsa_host :
  ~ exists (L : Lib) (chain : list Certificate) (host : Certificate)
      (k : ecdsa_PublicKey) (pk : ic_PubKey),
      chain !! 1%nat = Some host /\
      CertPublicKey host = PubECDSA k /\
      getRemotePubKey L chain = Ok pk.
Proof.
  intros (L & chain & host & k & pk & Hhost & Hk & Hok).
  destruct (getRemotePubKey_ecdsa L chain host k Hhost Hk) as (e & He & _).
  congruence.
Qed.

(** C3, amended. getRemotePubKey rejects every chain whose host
    certificate carries an ECDSA public key, with "unknown key type" when
    the chain itself verifies; and generateConfig from a host key of kind
    ECDSA is refused as well. *)
Theorem ecdsa_host_rejected_on_both_sides (L : Lib) :
  (forall chain host k,
     chain !! 1%nat = Some host ->
     CertPublicKey host = PubECDSA k ->
     exists e, getRemotePubKey L chain = Err e /\
       (forall ephemeral, chain = [ephemeral; host] ->
          x509_Verify L ephemeral [host] = None ->
          e = "unknown key type: *ecdsa.PublicKey")) /\
  (forall sk w,
     keyKind L sk KeyType_ECDSA ->
     exists e w', generateConfig L sk w = (Err e, w')).
Proof.
  split; [apply getRemotePubKey_ecdsa|].
  intros sk w (keyBytes & pbmes & Hkb & Hpb & Ht).
  assert (Hrsa : pb_Type pbmes <> KeyType_RSA) by (rewrite Ht; discriminate).
  assert (Hed : pb_Type pbmes <> KeyType_Ed25519) by (rewrite Ht; discriminate).
  pose proof (keyToCertificate_other_kind L sk w keyBytes pbmes Hkb Hpb Hrsa Hed) as H.
  destruct (rand_Int L (draws w) (2 ^ 62)) as [sn|e];
    eexists; eexists; apply generateConfig_no_host_certificate; exact H.
Qed.

(** C3 amended, on the mock: a verifying chain under an ECDSA host
    certificate is rejected for its key type, and the ECDSA host key yields
    no TLS configuration. *)
Lemma ecdsa_host_rejected_on_both_sides_witness :
  getRemotePubKey Mock.lib [Mock.ecdsaEphemeralCert; Mock.ecdsaHostCert]
    = Err "unknown key type: *ecdsa.PublicKey" /\
  (exists e w', generateConfig Mock.lib Mock.ecdsaKey Mock.world0 = (Err e, w')).
Proof.
  split.
  - destruct (proj1 (ecdsa_host_rejected_on_both_sides Mock.lib)
                [Mock.ecdsaEphemeralCert; Mock.ecdsaHostCert] Mock.ecdsaHostCert
                {| ec_Curve := P256; ec_X := 21; ec_Y := 22 |} eq_refl eq_refl)
      as (e & He & Hmsg).
    rewrite He. f_equal. apply (Hmsg Mock.ecdsaEphemeralCert); reflexivity.
  - apply (proj2 (ecdsa_host_rejected_on_both_sides Mock.lib)).
    exists ["003"; "009"]%byte, {| pb_Type := KeyType_ECDSA; pb_Data := ["009"]%byte |}.
    repeat split; reflexivity.
Defined.

(** ** The two certificates *)

Ltac unfold_durations :=
  unfold certValidityPeriod, Hour, Minute, Second, Millisecond, Microsecond,
    Nanosecond in *.

Lemma truncSecond_add_seconds t k :
  truncSecond (t + k * Second) = truncSecond t + k * Second.
Proof.
  unfold truncSecond. rewrite Z.div_add by (vm_compute; discriminate).
  generalize (t / Second). intros q. unfold_durations. lia.
Qed.

Lemma truncSecond_offsets t :
  truncSecond (t - 24 * Hour) = truncSecond t - 24 * Hour /\
  truncSecond (t + 180 * 24 * Hour) = truncSecond t + 180 * 24 * Hour.
Proof.
  split.
  - replace (t - 24 * Hour) with (t + (-86400) * Second) by (unfold_durations; lia).
    rewrite truncSecond_add_seconds. unfold_durations; lia.
  - replace (t + 180 * 24 * Hour) with (t + 15552000 * Second)
      by (unfold_durations; lia).
    rewrite truncSecond_add_seconds. unfold_durations; lia.
Qed.

Lemma host_certificate_fields L sk w key hostCert w' :
  x509_faithful L ->
  keyToCertificate L sk w = (Ok (key, hostCert), w') ->
  exists sn pbmes der,
    keyKind L sk (pb_Type pbmes) /\
    hostSigner L pbmes key /\
    rand_Int L (draws w) (2 ^ 62) = Ok sn /\
    x509_CreateCertificate L (S (draws w)) (hostTemplate L w sn) (hostTemplate L w sn)
      (Signer_Public L key) key = Ok der /\
    hostCert = issue (hostTemplate L w sn) (Signer_Public L key) der /\
    x509_CheckSignature L hostCert (Signer_Public L key) = true.
Proof.
  intros Hx H.
  apply keyToCertificate_Ok in H
    as (sn & keyBytes & pbmes & der & Hsn & Hkb & Hpb & Hkey & Hder & Hc & _).
  destruct (Hx _ _ _ _ _ _ Hder) as [Hparse Hsig].
  assert (hostCert = issue (hostTemplate L w sn) (Signer_Public L key) der) as ->
    by congruence.
  exists sn, pbmes, der. repeat split; try assumption.
  exists keyBytes, pbmes. repeat split; assumption.
Qed.



(** C4, as the spec has it, fails. On the mock, whose clock passes a
    second boundary between keyToCertificate and the ephemeral template,
    generateConfig returns a configuration whose chain parses to an
    ephemeral and a host certificate with different validity windows. *)
Lemma ephemeral_validity_not_identical :
  exists cfg w' ephemeral host,
    generateConfig Mock.lib Mock.hostKey Mock.world0 = (Ok cfg, w') /\
    map Certificate_chain (Certificates cfg) = [[Raw ephemeral; Raw host]] /\
    x509_ParseCertificate Mock.lib (Raw ephemeral) = Ok ephemeral /\
    x509_ParseCertificate Mock.lib (Raw host) = Ok host /\
    fst (keyToCertificate Mock.lib Mock.hostKey Mock.world0) =
      Ok (SignEd25519 Mock.hostPriv, host) /\
    validity ephemeral <> validity host.
Proof.
  eexists. exists (advance 4 4 Mock.world0), Mock.ephemeralCert, Mock.hostCert.
  split; [vm_compute; reflexivity|].
  repeat split; try reflexivity.
  vm_compute. discriminate.
Qed.

(** C4, amended. The ephemeral certificate of generateConfig has serial
    number 1, lists exactly the placeholder DNS name, is signed by the host
    key (its signature checks under the public key of the host
    certificate), and carries the public key of a P-256 key generated in
    this call. Its validity window is computed as the host certificate's
    is, from clock readings of its own: NotBefore is the third reading of
    the clock minus 24 hours, NotAfter the fourth plus 180 days, in whole
    seconds, where the host certificate has the first and the second; the
    two windows are identical when those readings fall in the same
    seconds. *)
Theorem generateConfig_ephemeral_certificate (L : Lib) (sk : ic_PrivKey)
    (w w' : World) (cfg : tls_Config) :
  x509_faithful L ->
  generateConfig L sk w = (Ok cfg, w') ->
  exists key hostCert ephemeralKey cert,
    fst (keyToCertificate L sk w) = Ok (key, hostCert) /\
    ecdsa_GenerateKey L (2 + draws w) P256 = Ok ephemeralKey /\
    map Certificate_chain (Certificates cfg) = [[Raw cert; Raw hostCert]] /\
    x509_ParseCertificate L (Raw cert) = Ok cert /\
    SerialNumber cert = 1 /\
    DNSNames cert = [hostname] /\
    x509_CheckSignature L cert (Signer_Public L key) = true /\
    CertPublicKey hostCert = Signer_Public L key /\
    CertPublicKey cert = PubECDSA (ecdsa_Public ephemeralKey) /\
    NotBefore cert = truncSecond (time_Now L (2 + ticks w)) - 24 * Hour /\
    NotAfter cert = truncSecond (time_Now L (3 + ticks w)) + 180 * 24 * Hour /\
    NotBefore hostCert = truncSecond (time_Now L (ticks w)) - 24 * Hour /\
    NotAfter hostCert = truncSecond (time_Now L (1 + ticks w)) + 180 * 24 * Hour /\
    (truncSecond (time_Now L (2 + ticks w)) = truncSecond (time_Now L (ticks w)) ->
     truncSecond (time_Now L (3 + ticks w)) = truncSecond (time_Now L (1 + ticks w)) ->
     validity cert = validity hostCert).
Proof.
  intros Hx H.
  apply generateConfig_Ok in H
    as (key & hostCert & ephemeralKey & der & cert & Hk & Hek & Hder & Hc & -> & _).
  destruct (host_certificate_fields _ _ _ _ _ _ Hx Hk)
    as (sn & pbmes & hder & _ & _ & _ & _ & Hhost & _).
  destruct (Hx _ _ _ _ _ _ Hder) as [Hparse Hsig].
  assert (cert = issue (ephemeralTemplate L (advance 2 2 w))
                   (PubECDSA (ecdsa_Public ephemeralKey)) der) as -> by congruence.
  exists key, hostCert, ephemeralKey. eexists.
  split; [rewrite Hk; reflexivity|].
  split; [exact Hek|].
  split; [reflexivity|].
  split; [exact Hparse|].
  split; [reflexivity|].
  split; [reflexivity|].
  split; [exact Hsig|].
  split; [rewrite Hhost; reflexivity|].
  split; [reflexivity|].
  assert (Hnb : NotBefore hostCert = truncSecond (time_Now L (ticks w)) - 24 * Hour)
    by (rewrite Hhost; apply truncSecond_offsets).
  assert (Hna : NotAfter hostCert = truncSecond (time_Now L (1 + ticks w)) + 180 * 24 * Hour)
    by (rewrite Hhost; apply truncSecond_offsets).
  split; [apply truncSecond_offsets|].
  split; [apply truncSecond_offsets|].
  split; [exact Hnb|]. split; [exact Hna|].
  intros E1 E2. unfold validity. rewrite Hnb, Hna. simpl.
  rewrite (proj1 (truncSecond_offsets _)), (proj2 (truncSecond_offsets _)).
  simpl in E1, E2. rewrite E1, E2. reflexivity.
Qed.

(** C4 amended, on the mock host key: the windows of the two certificates
    are as the four clock readings make them. *)
Lemma generateConfig_ephemeral_certificate_witness :
  exists key hostCert cert,
    fst (keyToCertificate Mock.lib Mock.hostKey Mock.world0) = Ok (key, hostCert) /\
    map Certificate_chain (Certificates Mock.config) = [[Raw cert; Raw hostCert]] /\
    SerialNumber cert = 1 /\
    DNSNames cert = [hostname] /\
    NotBefore cert = 1561000001 * Second - 24 * Hour /\
    NotBefore hostCert = 1561000000 * Second - 24 * Hour.
Proof.
  destruct (generateConfig_ephemeral_certificate Mock.lib Mock.hostKey Mock.world0
              (advance 4 4 Mock.world0) Mock.config mock_faithful eq_refl)
    as (key & hostCert & ephemeralKey & cert & Hk & _ & Hchain & _ & Hsn & Hdns & _ & _
        & _ & Hnb & _ & Hhnb & _).
  exists key, hostCert, cert.
  repeat split; assumption.
Defined.

(** ** The TLS configuration *)

Lemma generateConfig_complete L sk w key hostCert ephemeralKey certDER cert :
  keyToCertificate L sk w = (Ok (key, hostCert), advance 2 2 w) ->
  ecdsa_GenerateKey L (2 + draws w) P256 = Ok ephemeralKey ->
  x509_CreateCertificate L (3 + draws w) (ephemeralTemplate L (advance 2 2 w))
    hostCert (PubECDSA (ecdsa_Public ephemeralKey)) key = Ok certDER ->
  x509_ParseCertificate L certDER = Ok cert ->
  generateConfig L sk w =
    (Ok {| ServerName := hostname;
           InsecureSkipVerify := true;
           ClientAuth := RequireAnyClientCert;
           Certificates := [ {| Certificate_chain := [Raw cert; Raw hostCert];
                                PrivateKey := SignECDSA ephemeralKey |} ];
           VerifyPeerCertificate := None |},
     advance 4 4 w).
Proof.
  intros Hk Hek Hder Hc. unfold generateConfig.
  rewrite (bind_step _ _ _ _ _ Hk).
  unfold bind, with_rand, now, lift, ret, time_Add. simpl.
  simpl in Hek. rewrite Hek.
  match goal with
  | |- context [x509_CreateCertificate L ?n ?tmpl ?parent ?pub ?priv] =>
      change (x509_CreateCertificate L n tmpl parent pub priv)
        with (x509_CreateCertificate L (3 + draws w) (ephemeralTemplate L (advance 2 2 w))
                hostCert (PubECDSA (ecdsa_Public ephemeralKey)) key)
  end.
  rewrite Hder, Hc. reflexivity.
Qed.



(** ** Unsupported host keys *)

Lemma NewTransport_no_config L key w id e w1 :
  peer_IDFromPrivateKey L key = Ok id ->
  generateConfig L key w = (Err e, w1) ->
  NewTransport L key w = (Err e, w1).
Proof.
  intros Hid Hg. unfold NewTransport, bind, lift. rewrite Hid, Hg. reflexivity.
Qed.

Lemma NewTransport_no_identity L key w e :
  peer_IDFromPrivateKey L key = Err e ->
  NewTransport L key w = (Err e, w).
Proof. intros Hid. unfold NewTransport, bind, lift. rewrite Hid. reflexivity. Qed.

(** C7. For a host key whose kind is neither RSA nor Ed25519,
    keyToCertificate returns an error, and NewTransport returns an error
    and no transport, with no socket bound and no registry created; the
    error of both is "unsupported key type for TLS" whenever the steps
    before the inspection of the kind (the derivation of the peer identity,
    the drawing of the serial number) succeed. *)
Theorem NewTransport_unsupported_key (L : Lib) (key : ic_PrivKey) (w : World)
    (t : KeyType) :
  keyKind L key t ->
  t <> KeyType_RSA ->
  t <> KeyType_Ed25519 ->
  (exists e w', keyToCertificate L key w = (Err e, w')) /\
  (exists e w', NewTransport L key w = (Err e, w') /\
                conns w' = conns w /\ reuses w' = reuses w) /\
  (forall sn, rand_Int L (draws w) (2 ^ 62) = Ok sn ->
     fst (keyToCertificate L key w) = Err "unsupported key type for TLS" /\
     forall id, peer_IDFromPrivateKey L key = Ok id ->
       fst (NewTransport L key w) = Err "unsupported key type for TLS").
Proof.
  intros (keyBytes & pbmes & Hkb & Hpb & <-) Hrsa Hed.
  pose proof (keyToCertificate_other_kind L key w keyBytes pbmes Hkb Hpb Hrsa Hed) as Hk.
  split; [|split].
  - destruct (rand_Int L (draws w) (2 ^ 62)); eexists; eexists; exact Hk.
  - destruct (peer_IDFromPrivateKey L key) as [id|e] eqn:Hid.
    + destruct (rand_Int L (draws w) (2 ^ 62)); eexists; eexists;
        (split; [apply (NewTransport_no_config _ _ _ _ _ _ Hid);
                 apply generateConfig_no_host_certificate; exact Hk
                | split; reflexivity]).
    + exists e, w. split; [apply NewTransport_no_identity; exact Hid | split; reflexivity].
  - intros sn Hsn. rewrite Hsn in Hk. split; [rewrite Hk; reflexivity|].
    intros id Hid.
    rewrite (NewTransport_no_config _ _ _ _ _ _ Hid
               (generateConfig_no_host_certificate _ _ _ _ _ Hk)).
    reflexivity.
Qed.

(** C7 on the ECDSA key of the mock. *)
Lemma NewTransport_unsupported_key_witness :
  fst (NewTransport Mock.lib Mock.ecdsaKey Mock.world0) = Err "unsupported key type for TLS".
Proof.
  assert (Hkind : keyKind Mock.lib Mock.ecdsaKey KeyType_ECDSA).
  { exists ["003"; "009"]%byte, {| pb_Type := KeyType_ECDSA; pb_Data := ["009"]%byte |}.
    repeat split; reflexivity. }
  destruct (NewTransport_unsupported_key Mock.lib Mock.ecdsaKey Mock.world0
              KeyType_ECDSA Hkind) as (_ & _ & H).
  - discriminate.
  - discriminate.
  - apply (proj2 (H 4242 eq_refl) (Mock.edPublic (sk_raw Mock.ecdsaKey))). reflexivity.
Defined.

(** ** The connection manager *)

(** C8. getReuse maps "udp4" and "udp6" to the registry of that family and
    returns the invalid-network error for every other network string; on
    such a string connManager.Listen and connManager.Dial return that error
    and touch nothing, and on the two families they are the Listen and Dial
    of the registry. *)
Theorem getReuse_two_families (L : Lib) (c : connManager) :
  getReuse c "udp4" = Ok (reuseUDP4 c) /\
  getReuse c "udp6" = Ok (reuseUDP6 c) /\
  (forall addr,
     connManager_Listen L c "udp4" addr = reuse_Listen L (reuseUDP4 c) "udp4" addr /\
     connManager_Listen L c "udp6" addr = reuse_Listen L (reuseUDP6 c) "udp6" addr /\
     connManager_Dial L c "udp4" addr = reuse_Dial L (reuseUDP4 c) "udp4" addr /\
     connManager_Dial L c "udp6" addr = reuse_Dial L (reuseUDP6 c) "udp6" addr) /\
  (forall network,
     network <> "udp4" -> network <> "udp6" ->
     getReuse c network = Err "invalid network: must be either udp4 or udp6" /\
     forall addr w,
       connManager_Listen L c network addr w =
         (Err "invalid network: must be either udp4 or udp6", w) /\
       connManager_Dial L c network addr w =
         (Err "invalid network: must be either udp4 or udp6", w)).
Proof.
  split; [reflexivity|]. split; [reflexivity|]. split.
  - intros addr. repeat split; reflexivity.
  - intros network H4 H6.
    assert (E : getReuse c network = Err "invalid network: must be either udp4 or udp6").
    { unfold getReuse. repeat case_decide; congruence. }
    split; [exact E|]. intros addr w.
    unfold connManager_Listen, connManager_Dial, bind, lift. rewrite E.
    split; reflexivity.
Qed.

(** C8 on the network "udp": neither family. *)
Lemma getReuse_two_families_witness :
  getReuse {| reuseUDP4 := 0%nat; reuseUDP6 := 1%nat |} "udp" =
    Err "invalid network: must be either udp4 or udp6".
Proof.
  apply (proj1 (proj2 (proj2 (proj2
           (getReuse_two_families Mock.lib {| reuseUDP4 := 0%nat; reuseUDP6 := 1%nat |}))) "udp"
           ltac:(discriminate) ltac:(discriminate))).
Defined.

(** ** transport.Dial *)

Lemma dialVerifier_accepts L p rawCerts captured captured' :
  dialVerifier L p rawCerts captured = (None, captured') ->
  exists chain k,
    parseChain L rawCerts = Ok chain /\
    getRemotePubKey L chain = Ok k /\
    peer_MatchesPublicKey L p k = true /\
    captured' = Some k.
Proof.
  unfold dialVerifier. intros H.
  destruct (parseChain L rawCerts) as [chain|] eqn:Echain; [|discriminate H].
  destruct (getRemotePubKey L chain) as [k|] eqn:Ek; [|discriminate H].
  destruct (peer_MatchesPublicKey L p k) eqn:Em; simpl in H; [|discriminate H].
  injection H as <-. exists chain, k. repeat split; assumption.
Qed.

Lemma dialVerifier_mismatch L p rawCerts captured chain k :
  parseChain L rawCerts = Ok chain ->
  getRemotePubKey L chain = Ok k ->
  peer_MatchesPublicKey L p k = false ->
  dialVerifier L p rawCerts captured = (Some "peer IDs don't match", Some k).
Proof.
  intros Echain Ek Em. unfold dialVerifier. rewrite Echain, Ek, Em. reflexivity.
Qed.

Lemma quic_DialContext_Ok L report net cfg p s captured :
  quic_DialContext report net (with_VerifyPeerCertificate cfg (dialVerifier L p)) None
    = (Ok s, captured) ->
  exists rawCerts chain k,
    net = PeerPresents rawCerts (Ok s) /\
    parseChain L rawCerts = Ok chain /\
    getRemotePubKey L chain = Ok k /\
    peer_MatchesPublicKey L p k = true /\
    captured = Some k.
Proof.
  unfold quic_DialContext. simpl. intros H.
  destruct net as [err|rawCerts fin]; [discriminate H|].
  destruct (dialVerifier L p rawCerts None) as [[err|] captured'] eqn:Ev;
    [discriminate H|].
  injection H as -> ->.
  destruct (dialVerifier_accepts _ _ _ _ _ Ev) as (chain & k & Hc & Hk & Hm & ->).
  exists rawCerts, chain, k. repeat split; assumption.
Qed.

(** [Dial] from the moment the reuseConn is in hand. *)
Lemma Dial_with_conn L report t net raddr p w network host udpAddr addr pconn w1 :
  manet_DialArgs L raddr = Ok (network, host) ->
  net_ResolveUDPAddr L network host = Ok udpAddr ->
  fromQuicMultiaddr L raddr = Ok addr ->
  connManager_Dial L (transport_connManager t) network udpAddr w = (Ok pconn, w1) ->
  Dial L report t net raddr p w =
    match toQuicMultiaddr L (laddr (conns w1 !!! pconn)) with
    | Err err => (Err err, snd (DecreaseCount pconn w1))
    | Ok local =>
        match quic_DialContext report net
                (with_VerifyPeerCertificate (tlsConf t) (dialVerifier L p)) None with
        | (Err err, _) => (Err err, snd (DecreaseCount pconn w1))
        | (Ok s, captured) =>
            (Ok {| sess := s;
                   conn_transport := t;
                   conn_privKey := privKey t;
                   conn_localPeer := localPeer t;
                   localMultiaddr := local;
                   remotePubKey := captured;
                   remotePeerID := p;
                   remoteMultiaddr := raddr |},
             set_watchers (watchers w1 ++ [(s, pconn)]) w1)
        end
    end.
Proof.
  intros Hargs Hudp Haddr Hconn.
  unfold Dial, bind, lift. rewrite Hargs, Hudp, Haddr, Hconn.
  unfold LocalAddr.
  destruct (toQuicMultiaddr L (laddr (conns w1 !!! pconn))) as [local|err];
    [|reflexivity].
  destruct (quic_DialContext report net _ None) as [[s|err] captured]; reflexivity.
Qed.

(** A [Dial] that gets past its preliminaries has a reuseConn in hand. *)
Lemma Dial_reaches_conn L report t net raddr p w c w' :
  Dial L report t net raddr p w = (Ok c, w') ->
  exists network host udpAddr addr pconn w1,
    manet_DialArgs L raddr = Ok (network, host) /\
    net_ResolveUDPAddr L network host = Ok udpAddr /\
    fromQuicMultiaddr L raddr = Ok addr /\
    connManager_Dial L (transport_connManager t) network udpAddr w = (Ok pconn, w1).
Proof.
  unfold Dial, bind, lift. intros H.
  destruct (manet_DialArgs L raddr) as [[network host]|] eqn:Hargs; [|discriminate H].
  destruct (net_ResolveUDPAddr L network host) as [udpAddr|] eqn:Hudp; [|discriminate H].
  destruct (fromQuicMultiaddr L raddr) as [addr|] eqn:Haddr; [|discriminate H].
  destruct (connManager_Dial L (transport_connManager t) network udpAddr w)
    as [[pconn|] w1] eqn:Hconn; [|discriminate H].
  exists network, host, udpAddr, addr, pconn, w1. repeat split; assumption.
Qed.

Lemma Dial_Ok L report t net raddr p w c w' :
  Dial L report t net raddr p w = (Ok c, w') ->
  exists network host udpAddr pconn w1 local rawCerts chain k,
    manet_DialArgs L raddr = Ok (network, host) /\
    net_ResolveUDPAddr L network host = Ok udpAddr /\
    connManager_Dial L (transport_connManager t) network udpAddr w = (Ok pconn, w1) /\
    toQuicMultiaddr L (laddr (conns w1 !!! pconn)) = Ok local /\
    net = PeerPresents rawCerts (Ok (sess c)) /\
    parseChain L rawCerts = Ok chain /\
    getRemotePubKey L chain = Ok k /\
    peer_MatchesPublicKey L p k = true /\
    c = {| sess := sess c;
           conn_transport := t;
           conn_privKey := privKey t;
           conn_localPeer := localPeer t;
           localMultiaddr := local;
           remotePubKey := Some k;
           remotePeerID := p;
           remoteMultiaddr := raddr |} /\
    w' = set_watchers (watchers w1 ++ [(sess c, pconn)]) w1.
Proof.
  intros H.
  destruct (Dial_reaches_conn _ _ _ _ _ _ _ _ _ H)
    as (network & host & udpAddr & addr & pconn & w1 & Hargs & Hudp & Haddr & Hconn).
  rewrite (Dial_with_conn _ _ _ _ _ _ _ _ _ _ _ _ _ Hargs Hudp Haddr Hconn) in H.
  destruct (toQuicMultiaddr L (laddr (conns w1 !!! pconn))) as [local|] eqn:Hlocal;
    [|discriminate H].
  destruct (quic_DialContext report net _ None) as [[s|] captured] eqn:Hq;
    [|discriminate H].
  destruct (quic_DialContext_Ok _ _ _ _ _ _ _ Hq)
    as (rawCerts & chain & k & -> & Hc & Hk & Hm & ->).
  injection H as <- <-. simpl.
  exists network, host, udpAddr, pconn, w1, local, rawCerts, chain, k.
  repeat split; assumption.
Qed.

Lemma DecreaseCount_spec pconn w :
  GetCount pconn (snd (DecreaseCount pconn w)) = GetCount pconn w - 1 /\
  (forall c : reuseConn, c <> pconn ->
     conns (snd (DecreaseCount pconn w)) !! c = conns w !! c) /\
  watchers (snd (DecreaseCount pconn w)) = watchers w /\
  ticks (snd (DecreaseCount pconn w)) = ticks w /\
  draws (snd (DecreaseCount pconn w)) = draws w /\
  reuses (snd (DecreaseCount pconn w)) = reuses w.
Proof.
  unfold GetCount, DecreaseCount. simpl.
  split.
  - rewrite lookup_total_insert_eq. reflexivity.
  - split; [|repeat split; reflexivity].
    intros c Hc. apply lookup_insert_ne. congruence.
Qed.

(** C1. With expected peer [p]: when the key that getRemotePubKey extracts
    from the presented chain does not match [p], the verifier of the dial
    returns the error "peer IDs don't match" and Dial returns an error, no
    connection; and Dial returns a connection only when the peer presented
    certificates that parse to a chain on which getRemotePubKey succeeds
    with a key that matches [p]. *)
Theorem Dial_binds_peer_identity (L : Lib) (report : error -> error) (t : transport)
    (raddr : Multiaddr) (p : peer_ID) (w : World) :
  (forall rawCerts chain k captured,
     parseChain L rawCerts = Ok chain ->
     getRemotePubKey L chain = Ok k ->
     peer_MatchesPublicKey L p k = false ->
     fst (dialVerifier L p rawCerts captured) = Some "peer IDs don't match") /\
  (forall rawCerts fin chain k,
     parseChain L rawCerts = Ok chain ->
     getRemotePubKey L chain = Ok k ->
     peer_MatchesPublicKey L p k = false ->
     exists e w', Dial L report t (PeerPresents rawCerts fin) raddr p w = (Err e, w')) /\
  (forall net c w',
     Dial L report t net raddr p w = (Ok c, w') ->
     exists rawCerts chain k,
       net = PeerPresents rawCerts (Ok (sess c)) /\
       parseChain L rawCerts = Ok chain /\
       getRemotePubKey L chain = Ok k /\
       peer_MatchesPublicKey L p k = true).
Proof.
  assert (Honly : forall net c w',
     Dial L report t net raddr p w = (Ok c, w') ->
     exists rawCerts chain k,
       net = PeerPresents rawCerts (Ok (sess c)) /\
       parseChain L rawCerts = Ok chain /\
       getRemotePubKey L chain = Ok k /\
       peer_MatchesPublicKey L p k = true).
  { intros net c w' H.
    destruct (Dial_Ok _ _ _ _ _ _ _ _ _ H)
      as (_ & _ & _ & _ & _ & _ & rawCerts & chain & k & _ & _ & _ & _ & Hn & Hc & Hk & Hm & _).
    exists rawCerts, chain, k. repeat split; assumption. }
  split; [|split; [|exact Honly]].
  - intros rawCerts chain k captured Hc Hk Hm.
    rewrite (dialVerifier_mismatch _ _ _ _ _ _ Hc Hk Hm). reflexivity.
  - intros rawCerts fin chain k Hc Hk Hm.
    destruct (Dial L report t (PeerPresents rawCerts fin) raddr p w) as [[c|e] w'] eqn:HD.
    + destruct (Honly _ _ _ HD) as (rawCerts' & chain' & k' & [= <- _] & Hc' & Hk' & Hm').
      congruence.
    + exists e, w'. reflexivity.
Qed.

(** C1 on the mock: the host presents its chain to a dial that expects
    another peer, and to a dial that expects the host. *)
Lemma Dial_binds_peer_identity_witness :
  fst (dialVerifier Mock.lib Mock.otherID Mock.hostChain None) = Some "peer IDs don't match" /\
  (exists e w',
     Dial Mock.lib Mock.report Mock.dialer Mock.handshake
       Mock.theAddr Mock.otherID Mock.world1 = (Err e, w')) /\
  (exists rawCerts chain k,
     Mock.handshake = PeerPresents rawCerts (Ok (sess Mock.dialed)) /\
     parseChain Mock.lib rawCerts = Ok chain /\
     getRemotePubKey Mock.lib chain = Ok k /\
     peer_MatchesPublicKey Mock.lib Mock.hostID k = true).
Proof.
  split; [|split].
  - apply (proj1 (Dial_binds_peer_identity Mock.lib Mock.report Mock.dialer
                    Mock.theAddr Mock.otherID Mock.world1))
      with [Mock.ephemeralCert; Mock.hostCert]
           {| pk_kind := KeyType_Ed25519; pk_raw := Mock.edPublic Mock.hostPriv |};
      vm_compute; reflexivity.
  - apply (proj1 (proj2 (Dial_binds_peer_identity Mock.lib Mock.report Mock.dialer
                    Mock.theAddr Mock.otherID Mock.world1)))
      with [Mock.ephemeralCert; Mock.hostCert]
           {| pk_kind := KeyType_Ed25519; pk_raw := Mock.edPublic Mock.hostPriv |};
      vm_compute; reflexivity.
  - apply (proj2 (proj2 (Dial_binds_peer_identity Mock.lib Mock.report Mock.dialer
                    Mock.theAddr Mock.hostID Mock.world1))
             Mock.handshake Mock.dialed Mock.world2).
    vm_compute. reflexivity.
Defined.

(** C9. Once connManager.Dial has returned the reuseConn, a failure of the
    multiaddr conversion and a failure of the QUIC handshake both make Dial
    return that error in the world in which DecreaseCount has run once on
    the reuseConn; every error Dial then returns comes with the count of
    the reuseConn one below what it was when it was obtained, the other
    reuseConns untouched and no release goroutine left behind. *)
Theorem Dial_failure_releases_conn (L : Lib) (report : error -> error) (t : transport)
    (net : Handshake) (raddr : Multiaddr) (p : peer_ID) (w : World)
    (network host : string) (udpAddr addr : UDPAddr) (pconn : reuseConn) (w1 : World) :
  manet_DialArgs L raddr = Ok (network, host) ->
  net_ResolveUDPAddr L network host = Ok udpAddr ->
  fromQuicMultiaddr L raddr = Ok addr ->
  connManager_Dial L (transport_connManager t) network udpAddr w = (Ok pconn, w1) ->
  (forall err,
     toQuicMultiaddr L (laddr (conns w1 !!! pconn)) = Err err ->
     Dial L report t net raddr p w = (Err err, snd (DecreaseCount pconn w1))) /\
  (forall local err captured,
     toQuicMultiaddr L (laddr (conns w1 !!! pconn)) = Ok local ->
     quic_DialContext report net
       (with_VerifyPeerCertificate (tlsConf t) (dialVerifier L p)) None = (Err err, captured) ->
     Dial L report t net raddr p w = (Err err, snd (DecreaseCount pconn w1))) /\
  (forall e w',
     Dial L report t net raddr p w = (Err e, w') ->
     w' = snd (DecreaseCount pconn w1) /\
     GetCount pconn w' = GetCount pconn w1 - 1 /\
     (forall c : reuseConn, c <> pconn -> conns w' !! c = conns w1 !! c) /\
     watchers w' = watchers w1).
Proof.
  intros Hargs Hudp Haddr Hconn.
  pose proof (Dial_with_conn L report t net raddr p w _ _ _ _ _ _ Hargs Hudp Haddr Hconn)
    as HD.
  split; [|split].
  - intros err Hlocal. rewrite HD, Hlocal. reflexivity.
  - intros local err captured Hlocal Hq. rewrite HD, Hlocal, Hq. reflexivity.
  - intros e w' H. rewrite HD in H.
    assert (w' = snd (DecreaseCount pconn w1)) as ->.
    { destruct (toQuicMultiaddr L (laddr (conns w1 !!! pconn))) as [local|err].
      - destruct (quic_DialContext report net _ None) as [[s|err] captured];
          [discriminate H | injection H as _ <-; reflexivity].
      - injection H as _ <-. reflexivity. }
    split; [reflexivity|].
    destruct (DecreaseCount_spec pconn w1) as (Hcount & Hothers & Hwatch & _).
    repeat split; assumption.
Qed.

(** C9 on the mock: the handshake times out on the one socket. *)
Lemma Dial_failure_releases_conn_witness :
  exists w',
    Dial Mock.lib Mock.report Mock.dialer (HandshakeFails "timeout") Mock.theAddr
      Mock.hostID Mock.world1 = (Err "timeout", w') /\
    GetCount 0%nat w' = 1 - 1.
Proof.
  destruct (Dial_failure_releases_conn Mock.lib Mock.report Mock.dialer
              (HandshakeFails "timeout") Mock.theAddr Mock.hostID Mock.world1
              "udp4" "127.0.0.1:4001" {| IP := "127.0.0.1"; Port := 4001 |}
              {| IP := "127.0.0.1"; Port := 4001 |} 0%nat
              (set_conns {[ 0%nat := Mock.socket 1 ]} Mock.world1)
              eq_refl eq_refl eq_refl eq_refl) as (_ & Hq & Hall).
  eexists. split.
  - apply (Hq "/ip4/0.0.0.0/udp/4001/quic" "timeout" None); reflexivity.
  - apply (Hall "timeout").
    apply (Hq "/ip4/0.0.0.0/udp/4001/quic" "timeout" None); reflexivity.
Defined.

(** C10. The connection a successful Dial returns has the expected peer
    [p] itself as remote peer ID, the key that getRemotePubKey extracted
    from the certificates presented in the handshake as remote public key,
    and the localPeer and privKey of the transport as local identity. *)
Theorem Dial_records_identities (L : Lib) (report : error -> error) (t : transport)
    (net : Handshake) (raddr : Multiaddr) (p : peer_ID) (w w' : World) (c : conn) :
  Dial L report t net raddr p w = (Ok c, w') ->
  remotePeerID c = p /\
  (exists rawCerts chain k,
     net = PeerPresents rawCerts (Ok (sess c)) /\
     parseChain L rawCerts = Ok chain /\
     getRemotePubKey L chain = Ok k /\
     remotePubKey c = Some k) /\
  conn_localPeer c = localPeer t /\
  conn_privKey c = privKey t /\
  conn_transport c = t.
Proof.
  intros H.
  destruct (Dial_Ok _ _ _ _ _ _ _ _ _ H)
    as (_ & _ & _ & _ & _ & local & rawCerts & chain & k & _ & _ & _ & _ & Hn & Hc & Hk & _
        & Hconn & _).
  rewrite Hconn. simpl.
  split; [reflexivity|].
  split; [|repeat split; reflexivity].
  exists rawCerts, chain, k. repeat split; assumption.
Qed.

(** C10 on the mock: a dial of the host that expects the host. *)
Lemma Dial_records_identities_witness :
  remotePeerID Mock.dialed = Mock.hostID /\
  (exists rawCerts chain k,
     Mock.handshake = PeerPresents rawCerts (Ok (sess Mock.dialed)) /\
     parseChain Mock.lib rawCerts = Ok chain /\
     getRemotePubKey Mock.lib chain = Ok k /\
     remotePubKey Mock.dialed = Some k) /\
  conn_localPeer Mock.dialed = localPeer Mock.dialer /\
  conn_privKey Mock.dialed = privKey Mock.dialer /\
  conn_transport Mock.dialed = Mock.dialer.
Proof.
  apply (Dial_records_identities Mock.lib Mock.report Mock.dialer Mock.handshake
           Mock.theAddr Mock.hostID Mock.world1 Mock.world2 Mock.dialed).
  vm_compute. reflexivity.
Defined.

(** * Further properties of the code *)

(** ** The parsing loop of the callback *)

(** X1. The loop of the callback returns a chain exactly when every raw
    certificate parses, and the chain then holds the parsed certificates
    one for one, in the order presented. *)
Theorem parseChain_Ok_iff (L : Lib) (rawCerts : list bytes) (chain : list Certificate) :
  parseChain L rawCerts = Ok chain <->
  Forall2 (fun raw cert => x509_ParseCertificate L raw = Ok cert) rawCerts chain.
Proof.
  revert chain. induction rawCerts as [|raw rest IH]; intros chain; simpl.
  - split.
    + intros [= <-]. constructor.
    + intros H. inversion H. reflexivity.
  - split.
    + intros H.
      destruct (x509_ParseCertificate L raw) as [cert|] eqn:Ec; [|discriminate H].
      destruct (parseChain L rest) as [chain'|] eqn:Er; [|discriminate H].
      injection H as <-. constructor; [exact Ec | apply IH; reflexivity].
    + intros H. inversion H as [|? cert ? chain' Hc Hrest]; subst.
      rewrite Hc. apply IH in Hrest. rewrite Hrest. reflexivity.
Qed.

Lemma parseChain_length L rawCerts chain :
  parseChain L rawCerts = Ok chain -> length chain = length rawCerts.
Proof.
  revert chain. induction rawCerts as [|raw rest IH]; intros chain; simpl.
  - intros [= <-]. reflexivity.
  - destruct (x509_ParseCertificate L raw) as [cert|]; [|discriminate].
    destruct (parseChain L rest) as [chain'|]; [|discriminate].
    intros [= <-]. simpl. rewrite (IH chain' eq_refl). reflexivity.
Qed.

(** X2. The loop fails exactly when some raw certificate does not parse,
    and the error is that of the first such certificate, whatever follows
    it. *)
Theorem parseChain_Err_iff (L : Lib) (rawCerts : list bytes) (err : error) :
  parseChain L rawCerts = Err err <->
  exists good bad rest,
    rawCerts = (good ++ bad :: rest)%list /\
    Forall (fun raw => exists cert, x509_ParseCertificate L raw = Ok cert) good /\
    x509_ParseCertificate L bad = Err err.
Proof.
  induction rawCerts as [|raw tail IH]; simpl.
  - split; [discriminate|].
    intros (good & bad & rest & H & _). destruct good; discriminate H.
  - split.
    + intros H.
      destruct (x509_ParseCertificate L raw) as [cert|e] eqn:Ec.
      * destruct (parseChain L tail) as [chain'|e] eqn:Er; [discriminate H|].
        injection H as ->.
        destruct (proj1 IH eq_refl) as (good & bad & rest & -> & Hgood & Hbad).
        exists (raw :: good), bad, rest. repeat split; try assumption.
        constructor; [exists cert; exact Ec | exact Hgood].
      * injection H as ->. exists [], raw, tail. repeat split; [constructor | exact Ec].
    + intros (good & bad & rest & Heq & Hgood & Hbad).
      destruct good as [|g good]; simpl in Heq; injection Heq as -> ->.
      * rewrite Hbad. reflexivity.
      * inversion Hgood as [|? ? [cert Hc] Hgood']; subst.
        rewrite Hc.
        rewrite (proj2 IH) by (exists good, bad, rest; repeat split; assumption).
        reflexivity.
Qed.

(** X2 on the mock: a byte string that is no certificate, after the host's
    ephemeral certificate and before its host certificate. *)
Lemma parseChain_Err_iff_witness :
  parseChain Mock.lib [["002"]%byte; ["255"]%byte; ["001"]%byte]
    = Err "x509: malformed certificate".
Proof.
  apply (proj2 (parseChain_Err_iff Mock.lib _ _)).
  exists [["002"]%byte], ["255"]%byte, [["001"]%byte].
  split; [reflexivity|]. split.
  - constructor; [exists Mock.ephemeralCert; reflexivity | constructor].
  - reflexivity.
Defined.

(** X1 on the mock: the chain of the host. *)
Lemma parseChain_Ok_iff_witness :
  parseChain Mock.lib Mock.hostChain = Ok [Mock.ephemeralCert; Mock.hostCert].
Proof.
  apply (proj2 (parseChain_Ok_iff Mock.lib _ _)).
  repeat constructor.
Defined.

(** ** What the verifier of a dial accepts *)

(** X3. A peer that presents any number of certificates other than two,
    none included, is never accepted: the verifier returns an error, which
    is the chain-length error when the certificates all parse, and a Dial
    to such a peer returns no connection. *)
Theorem dialVerifier_rejects_wrong_count (L : Lib) (p : peer_ID)
    (rawCerts : list bytes) :
  length rawCerts <> 2%nat ->
  (forall captured, exists err,
     fst (dialVerifier L p rawCerts captured) = Some err /\
     (forall chain, parseChain L rawCerts = Ok chain ->
        err = "expected 2 certificates in the chain")) /\
  (forall report t fin raddr w, exists e w',
     Dial L report t (PeerPresents rawCerts fin) raddr p w = (Err e, w')).
Proof.
  intros Hlen.
  assert (Hrej : forall captured, exists err,
     fst (dialVerifier L p rawCerts captured) = Some err /\
     (forall chain, parseChain L rawCerts = Ok chain ->
        err = "expected 2 certificates in the chain")).
  { intros captured. unfold dialVerifier.
    destruct (parseChain L rawCerts) as [chain|e] eqn:Ec.
    - rewrite (getRemotePubKey_wrong_length L chain)
        by (rewrite (parseChain_length _ _ _ Ec); exact Hlen).
      eexists. split; [reflexivity|]. intros _ _. reflexivity.
    - exists e. split; [reflexivity|]. intros chain [=]. }
  split; [exact Hrej|].
  intros report t fin raddr w.
  destruct (Dial L report t (PeerPresents rawCerts fin) raddr p w) as [[c|e] w'] eqn:HD.
  - destruct (Dial_Ok _ _ _ _ _ _ _ _ _ HD)
      as (_ & _ & _ & _ & _ & _ & rawCerts' & chain & k & _ & _ & _ & _ & [= <- _] & Hc
          & Hk & _).
    rewrite (getRemotePubKey_wrong_length L chain) in Hk
      by (rewrite (parseChain_length _ _ _ Hc); exact Hlen).
    discriminate Hk.
  - exists e, w'. reflexivity.
Qed.

(** X3 on the mock: a peer that presents no certificate, and one that
    presents the host certificate alone. *)
Lemma dialVerifier_rejects_wrong_count_witness :
  fst (dialVerifier Mock.lib Mock.hostID [] None)
    = Some "expected 2 certificates in the chain" /\
  fst (dialVerifier Mock.lib Mock.hostID [["001"]%byte] None)
    = Some "expected 2 certificates in the chain".
Proof.
  split.
  - destruct (proj1 (dialVerifier_rejects_wrong_count Mock.lib Mock.hostID []
                       ltac:(discriminate)) None) as (err & -> & Hmsg).
    f_equal. apply (Hmsg []). reflexivity.
  - destruct (proj1 (dialVerifier_rejects_wrong_count Mock.lib Mock.hostID
                       [["001"]%byte] ltac:(discriminate)) None) as (err & -> & Hmsg).
    f_equal. apply (Hmsg [Mock.hostCert]). reflexivity.
Defined.

(** X4. getRemotePubKey returns a key only from a host certificate whose
    public key is RSA or Ed25519: the RSA key re-encoded as PKIX and
    unmarshalled, the Ed25519 key unmarshalled from its raw bytes. On a
    verified pair with a public key of any other type it returns "unknown
    key type" followed by the name of the type. *)
Theorem getRemotePubKey_key_kinds (L : Lib) (chain : list Certificate) :
  (forall k,
     getRemotePubKey L chain = Ok k ->
     exists ephemeral host,
       chain = [ephemeral; host] /\
       ((exists rk pkix,
           CertPublicKey host = PubRSA rk /\
           x509_MarshalPKIXPublicKey L rk = Ok pkix /\
           ic_UnmarshalRsaPublicKey L pkix = Ok k)
        \/ (exists ek,
              CertPublicKey host = PubEd25519 ek /\
              ic_UnmarshalEd25519PublicKey L ek = Ok k))) /\
  (forall ephemeral host,
     chain = [ephemeral; host] ->
     x509_Verify L ephemeral [host] = None ->
     (forall rk, CertPublicKey host <> PubRSA rk) ->
     (forall ek, CertPublicKey host <> PubEd25519 ek) ->
     getRemotePubKey L chain = Err ("unknown key type: " ++ type_name (CertPublicKey host))).
Proof.
  split.
  - intros k H.
    destruct (getRemotePubKey_Ok_pair _ _ _ H) as (ephemeral & host & ->).
    exists ephemeral, host. split; [reflexivity|].
    rewrite getRemotePubKey_pair in H.
    destruct (x509_Verify L ephemeral [host]); [discriminate H|].
    destruct (CertPublicKey host) as [rk|ek| | |]; try discriminate H.
    + left. destruct (x509_MarshalPKIXPublicKey L rk) as [pkix|] eqn:Em; [|discriminate H].
      exists rk, pkix. repeat split; assumption.
    + right. exists ek. split; [reflexivity | exact H].
  - intros ephemeral host -> Hv Hrsa Hed.
    rewrite getRemotePubKey_pair, Hv.
    destruct (CertPublicKey host) as [rk|ek| | |]; try reflexivity.
    + destruct (Hrsa rk). reflexivity.
    + destruct (Hed ek). reflexivity.
Qed.

(** X4 on the mock: the chain of the host, and the verifying chain under
    an ECDSA host certificate. *)
Lemma getRemotePubKey_key_kinds_witness :
  (exists ephemeral host,
     [Mock.ephemeralCert; Mock.hostCert] = [ephemeral; host] /\
     ((exists rk pkix,
         CertPublicKey host = PubRSA rk /\
         x509_MarshalPKIXPublicKey Mock.lib rk = Ok pkix /\
         ic_UnmarshalRsaPublicKey Mock.lib pkix
           = Ok {| pk_kind := KeyType_Ed25519; pk_raw := Mock.hostID |})
      \/ (exists ek,
            CertPublicKey host = PubEd25519 ek /\
            ic_UnmarshalEd25519PublicKey Mock.lib ek
              = Ok {| pk_kind := KeyType_Ed25519; pk_raw := Mock.hostID |}))) /\
  getRemotePubKey Mock.lib [Mock.ecdsaEphemeralCert; Mock.ecdsaHostCert]
    = Err ("unknown key type: " ++ type_name (CertPublicKey Mock.ecdsaHostCert)).
Proof.
  split.
  - apply (proj1 (getRemotePubKey_key_kinds Mock.lib [Mock.ephemeralCert; Mock.hostCert])).
    reflexivity.
  - apply (proj2 (getRemotePubKey_key_kinds Mock.lib
                    [Mock.ecdsaEphemeralCert; Mock.ecdsaHostCert])
             Mock.ecdsaEphemeralCert Mock.ecdsaHostCert);
      [reflexivity | reflexivity | discriminate | discriminate].
Defined.

(** ** The chain that generateConfig presents *)

Lemma generateConfig_certificates L sk w cfg w' :
  x509_faithful L ->
  generateConfig L sk w = (Ok cfg, w') ->
  exists key hostCert ephemeralKey cert sn pbmes,
    keyToCertificate L sk w = (Ok (key, hostCert), advance 2 2 w) /\
    hostSigner L pbmes key /\
    Certificates cfg = [ {| Certificate_chain := [Raw cert; Raw hostCert];
                            PrivateKey := SignECDSA ephemeralKey |} ] /\
    hostCert = issue (hostTemplate L w sn) (Signer_Public L key) (Raw hostCert) /\
    cert = issue (ephemeralTemplate L (advance 2 2 w))
             (PubECDSA (ecdsa_Public ephemeralKey)) (Raw cert) /\
    x509_ParseCertificate L (Raw hostCert) = Ok hostCert /\
    x509_ParseCertificate L (Raw cert) = Ok cert.
Proof.
  intros Hx H.
  apply generateConfig_Ok in H
    as (key & hostCert & ephemeralKey & der & cert & Hk & Hek & Hder & Hc & -> & _).
  destruct (host_certificate_fields _ _ _ _ _ _ Hx Hk)
    as (sn & pbmes & hder & _ & Hkey & _ & Hhder & Hhost & _).
  destruct (Hx _ _ _ _ _ _ Hder) as [Hparse _].
  destruct (Hx _ _ _ _ _ _ Hhder) as [Hhparse _].
  assert (Hcert : cert = issue (ephemeralTemplate L (advance 2 2 w))
                           (PubECDSA (ecdsa_Public ephemeralKey)) der) by congruence.
  exists key, hostCert, ephemeralKey, cert, sn, pbmes.
  split; [exact Hk|]. split; [exact Hkey|]. split; [reflexivity|].
  rewrite Hhost at 1 3. rewrite Hcert at 1 3. rewrite Hhost, Hcert. simpl.
  repeat split; assumption.
Qed.

(** X5. The chain that generateConfig puts in the TLS configuration
    parses, certificate by certificate, to the ephemeral and the host
    certificate, and getRemotePubKey on it returns the error of the
    verification or else the libp2p public key of the host's signing key,
    never one derived from the ephemeral key. A dial that is presented this
    chain and whose verification passes accepts it exactly when the
    expected peer matches that key. *)
Theorem generateConfig_chain_identifies_host (L : Lib) (sk : ic_PrivKey)
    (w w' : World) (cfg : tls_Config) :
  x509_faithful L ->
  generateConfig L sk w = (Ok cfg, w') ->
  exists key hostCert cert raw,
    fst (keyToCertificate L sk w) = Ok (key, hostCert) /\
    map Certificate_chain (Certificates cfg) = [raw] /\
    parseChain L raw = Ok [cert; hostCert] /\
    getRemotePubKey L [cert; hostCert] =
      match x509_Verify L cert [hostCert] with
      | Some err => Err err
      | None => hostPubKey L key
      end /\
    (forall p k captured,
       x509_Verify L cert [hostCert] = None ->
       hostPubKey L key = Ok k ->
       snd (dialVerifier L p raw captured) = Some k /\
       (fst (dialVerifier L p raw captured) = None <->
        peer_MatchesPublicKey L p k = true)).
Proof.
  intros Hx H.
  destruct (generateConfig_certificates _ _ _ _ _ Hx H)
    as (key & hostCert & ephemeralKey & cert & sn & pbmes & Hk & Hkey & Hchain & Hhost
        & Hcert & Hhparse & Hparse).
  assert (Hpc : parseChain L [Raw cert; Raw hostCert] = Ok [cert; hostCert])
    by (simpl; rewrite Hparse, Hhparse; reflexivity).
  assert (Hget : getRemotePubKey L [cert; hostCert] =
                 match x509_Verify L cert [hostCert] with
                 | Some err => Err err
                 | None => hostPubKey L key
                 end).
  { rewrite getRemotePubKey_pair.
    destruct (x509_Verify L cert [hostCert]); [reflexivity|].
    rewrite Hhost. simpl.
    destruct Hkey as [[_ (k & _ & ->)]|[_ ->]]; reflexivity. }
  exists key, hostCert, cert, [Raw cert; Raw hostCert].
  split; [rewrite Hk; reflexivity|].
  split; [rewrite Hchain; reflexivity|].
  split; [exact Hpc|]. split; [exact Hget|].
  intros p k captured Hv Hpk.
  unfold dialVerifier. rewrite Hpc, Hget, Hv, Hpk.
  destruct (peer_MatchesPublicKey L p k); simpl; split; try reflexivity;
    split; intros; congruence.
Qed.

(** X5 on the mock host: its chain yields its own public key, which the
    dial that expects the host accepts and the dial that expects another
    peer does not. *)
Lemma generateConfig_chain_identifies_host_witness :
  exists key hostCert cert raw,
    fst (keyToCertificate Mock.lib Mock.hostKey Mock.world0) = Ok (key, hostCert) /\
    map Certificate_chain (Certificates Mock.config) = [raw] /\
    parseChain Mock.lib raw = Ok [cert; hostCert] /\
    getRemotePubKey Mock.lib [cert; hostCert] =
      match x509_Verify Mock.lib cert [hostCert] with
      | Some err => Err err
      | None => hostPubKey Mock.lib key
      end.
Proof.
  destruct (generateConfig_chain_identifies_host Mock.lib Mock.hostKey Mock.world0
              (advance 4 4 Mock.world0) Mock.config mock_faithful eq_refl)
    as (key & hostCert & cert & raw & Hk & Hchain & Hpc & Hget & _).
  exists key, hostCert, cert, raw. repeat split; assumption.
Defined.

(** ** Validity windows *)

Lemma truncSecond_bounds t : t - Second < truncSecond t <= t.
Proof.
  unfold truncSecond.
  change Second with 1000000000.
  pose proof (Z.div_mod t 1000000000 ltac:(discriminate)) as Hdm.
  pose proof (Z.mod_pos_bound t 1000000000 ltac:(reflexivity)) as Hm.
  lia.
Qed.

Lemma truncSecond_mono a b : a <= b -> truncSecond a <= truncSecond b.
Proof.
  intros Hab. unfold truncSecond.
  apply Z.mul_le_mono_nonneg_r; [vm_compute; discriminate|].
  apply Z.div_le_mono; [reflexivity | exact Hab].
Qed.

(** X6. The host certificate is back-dated by at least 24 hours from the
    first clock reading and by less than 24 hours and a second; it expires
    at most 180 days after the second reading and less than a second
    before that. So it is valid at the moment it is created, and when the
    clock does not run backwards between the two readings it is valid for
    at least 181 days. *)
Theorem host_certificate_window (L : Lib) (sk : ic_PrivKey) (w w' : World)
    (key : Signer) (hostCert : Certificate) :
  x509_faithful L ->
  keyToCertificate L sk w = (Ok (key, hostCert), w') ->
  time_Now L (ticks w) - 24 * Hour - Second < NotBefore hostCert
    <= time_Now L (ticks w) - 24 * Hour /\
  time_Now L (S (ticks w)) + 180 * 24 * Hour - Second < NotAfter hostCert
    <= time_Now L (S (ticks w)) + 180 * 24 * Hour /\
  NotBefore hostCert < time_Now L (ticks w) /\
  time_Now L (S (ticks w)) < NotAfter hostCert /\
  (time_Now L (ticks w) <= time_Now L (S (ticks w)) ->
   181 * 24 * Hour <= NotAfter hostCert - NotBefore hostCert).
Proof.
  intros Hx H.
  destruct (host_certificate_fields _ _ _ _ _ _ Hx H)
    as (sn & pbmes & der & _ & _ & _ & _ & -> & _).
  simpl.
  pose proof (truncSecond_bounds (time_Now L (ticks w) - 24 * Hour)) as B1.
  pose proof (truncSecond_bounds (time_Now L (S (ticks w)) + 180 * 24 * Hour)) as B2.
  split; [exact B1|]. split; [exact B2|].
  split; [revert B1; unfold_durations; lia|].
  split; [revert B2; unfold_durations; lia|].
  intros Hmono.
  rewrite (proj1 (truncSecond_offsets _)), (proj2 (truncSecond_offsets _)).
  pose proof (truncSecond_mono _ _ Hmono).
  unfold_durations. lia.
Qed.

(** X6 on the mock host key. *)
Lemma host_certificate_window_witness :
  NotBefore Mock.hostCert < time_Now Mock.lib 0 /\
  time_Now Mock.lib 1 < NotAfter Mock.hostCert /\
  181 * 24 * Hour <= NotAfter Mock.hostCert - NotBefore Mock.hostCert.
Proof.
  destruct (host_certificate_window Mock.lib Mock.hostKey Mock.world0
              (advance 2 2 Mock.world0) (SignEd25519 Mock.hostPriv) Mock.hostCert
              mock_faithful eq_refl) as (_ & _ & Hnb & Hna & Hlen).
  split; [exact Hnb|]. split; [exact Hna|].
  apply Hlen. vm_compute. discriminate.
Defined.

(** X7. When the clock does not run backwards, the validity window of the
    ephemeral certificate begins and ends no earlier than that of the host
    certificate that signs it; and it begins before the host certificate
    expires so long as less than 181 days pass between the second and the
    third reading of the clock. *)
Theorem ephemeral_window_not_earlier (L : Lib) (sk : ic_PrivKey) (w w' : World)
    (cfg : tls_Config) :
  x509_faithful L ->
  generateConfig L sk w = (Ok cfg, w') ->
  exists key hostCert cert,
    fst (keyToCertificate L sk w) = Ok (key, hostCert) /\
    map Certificate_chain (Certificates cfg) = [[Raw cert; Raw hostCert]] /\
    x509_ParseCertificate L (Raw cert) = Ok cert /\
    (time_Now L (ticks w) <= time_Now L (2 + ticks w) ->
     NotBefore hostCert <= NotBefore cert) /\
    (time_Now L (1 + ticks w) <= time_Now L (3 + ticks w) ->
     NotAfter hostCert <= NotAfter cert) /\
    (time_Now L (2 + ticks w) <= time_Now L (1 + ticks w) + 181 * 24 * Hour ->
     NotBefore cert <= NotAfter hostCert).
Proof.
  intros Hx H.
  destruct (generateConfig_certificates _ _ _ _ _ Hx H)
    as (key & hostCert & ephemeralKey & cert & sn & pbmes & Hk & _ & Hchain & Hhost
        & Hcert & _ & Hparse).
  exists key, hostCert, cert.
  split; [rewrite Hk; reflexivity|].
  split; [rewrite Hchain; reflexivity|].
  split; [exact Hparse|].
  rewrite Hhost, Hcert. simpl.
  rewrite !(proj1 (truncSecond_offsets _)), !(proj2 (truncSecond_offsets _)).
  split; [|split]; intros Hmono.
  - pose proof (truncSecond_mono _ _ Hmono). lia.
  - pose proof (truncSecond_mono _ _ Hmono). lia.
  - pose proof (truncSecond_mono _ _ Hmono) as Ht.
    replace (time_Now L (S (ticks w)) + 181 * 24 * Hour)
      with (time_Now L (S (ticks w)) + 15638400 * Second) in Ht
      by (unfold_durations; lia).
    rewrite truncSecond_add_seconds in Ht.
    revert Ht. unfold_durations. lia.
Qed.

(** X7 on the mock, whose clock runs forward. *)
Lemma ephemeral_window_not_earlier_witness :
  NotBefore Mock.hostCert <= NotBefore Mock.ephemeralCert /\
  NotAfter Mock.hostCert <= NotAfter Mock.ephemeralCert /\
  NotBefore Mock.ephemeralCert <= NotAfter Mock.hostCert.
Proof.
  destruct (ephemeral_window_not_earlier Mock.lib Mock.hostKey Mock.world0
              (advance 4 4 Mock.world0) Mock.config mock_faithful eq_refl)
    as (key & hostCert & cert & Hk & Hchain & Hparse & Hnb & Hna & Hov).
  injection Hk as _ <-.
  assert (cert = Mock.ephemeralCert) as ->.
  { injection Hchain as Hraw. rewrite <- Hraw in Hparse.
    change (Ok Mock.ephemeralCert = Ok cert) in Hparse.
    injection Hparse as <-. reflexivity. }
  split; [apply Hnb; vm_compute; discriminate|].
  split; [apply Hna; vm_compute; discriminate|].
  apply Hov. vm_compute. discriminate.
Defined.

(** ** The reuseConn over the life of a dial *)



Lemma wake_others (s : quic_Session) (ws : list (quic_Session * reuseConn)) w :
  Forall (fun x => fst x <> s) ws ->
  fold_left (wake s) ws w = w /\
  List.filter (fun x => negb (waits_on s x)) ws = ws.
Proof.
  intros H. revert w. induction H as [|x ws Hx _ IH]; intros w.
  - split; reflexivity.
  - assert (E : waits_on s x = false)
      by (unfold waits_on; apply Nat.eqb_neq; exact Hx).
    cbn [fold_left List.filter]. unfold wake at 2. rewrite E. cbn [negb].
    destruct (IH w) as [-> ->]. split; reflexivity.
Qed.

(** X9. A successful Dial leaves the reuseConn as connManager.Dial handed
    it over, the count not decremented, and starts exactly one goroutine,
    waiting on the new session, for that reuseConn. When no older goroutine
    waits on the same session, the end of the session brings the world to
    what a failed handshake would have left: DecreaseCount run once on the
    reuseConn and no goroutine remaining. *)
Theorem Dial_success_releases_on_done (L : Lib) (report : error -> error)
    (t : transport) (net : Handshake) (raddr : Multiaddr) (p : peer_ID)
    (w w' : World) (c : conn) :
  Dial L report t net raddr p w = (Ok c, w') ->
  exists network host udpAddr pconn w1,
    manet_DialArgs L raddr = Ok (network, host) /\
    net_ResolveUDPAddr L network host = Ok udpAddr /\
    connManager_Dial L (transport_connManager t) network udpAddr w = (Ok pconn, w1) /\
    toQuicMultiaddr L (laddr (conns w1 !!! pconn)) = Ok (localMultiaddr c) /\
    remoteMultiaddr c = raddr /\
    conns w' = conns w1 /\
    watchers w' = (watchers w1 ++ [(sess c, pconn)])%list /\
    (Forall (fun x => fst x <> sess c) (watchers w1) ->
     session_done (sess c) w' = (Ok tt, snd (DecreaseCount pconn w1))).
Proof.
  intros H.
  destruct (Dial_Ok _ _ _ _ _ _ _ _ _ H)
    as (network & host & udpAddr & pconn & w1 & local & rawCerts & chain & k & Hargs
        & Hudp & Hconn & Hlocal & _ & _ & _ & _ & Hc & ->).
  exists network, host, udpAddr, pconn, w1.
  split; [exact Hargs|]. split; [exact Hudp|]. split; [exact Hconn|].
  split; [rewrite Hc; exact Hlocal|].
  split; [rewrite Hc; reflexivity|].
  split; [reflexivity|]. split; [reflexivity|].
  intros Hfresh. unfold session_done. cbn [watchers set_watchers]. f_equal.
  rewrite List.filter_app, fold_left_app.
  rewrite (proj2 (wake_others _ _ w1 Hfresh)), (proj1 (wake_others _ _ _ Hfresh)).
  cbn [fold_left List.filter]. unfold wake, waits_on. cbn [fst snd].
  rewrite Nat.eqb_refl. cbn [negb]. rewrite app_nil_r.
  destruct w1; reflexivity.
Qed.

(** X9 on the mock: the dial of the host by itself, then the end of its
    session. *)
Lemma Dial_success_releases_on_done_witness :
  GetCount 0%nat Mock.world2 = 1 /\
  watchers Mock.world2 = [(7%nat, 0%nat)] /\
  GetCount 0%nat (snd (session_done 7%nat Mock.world2)) = 0 /\
  watchers (snd (session_done 7%nat Mock.world2)) = [].
Proof.
  destruct (Dial_success_releases_on_done Mock.lib Mock.report Mock.dialer
              Mock.handshake Mock.theAddr Mock.hostID Mock.world1 Mock.world2
              Mock.dialed eq_refl)
    as (network & host & udpAddr & pconn & w1 & Hargs & Hudp & Hconn & _ & _ & Hconns
        & Hwatch & Hdone).
  injection Hargs as <- <-. injection Hudp as <-.
  injection Hconn as <- <-.
  split; [reflexivity|]. split; [reflexivity|].
  pose proof (Hdone ltac:(constructor)) as Hd.
  change (sess Mock.dialed) with 7%nat in Hd.
  rewrite Hd. split; reflexivity.
Defined.

(** ** transport.Listen *)



(** ** NewTransport *)

(** X11. A transport that NewTransport returns holds the key it was given,
    the peer identity derived from that key, and the configuration of
    generateConfig with no verifier installed yet; its two registries are
    distinct, so that no network string of one family reaches the registry
    of the other; and its construction binds no socket. *)
Theorem NewTransport_Ok (L : Lib) (key : ic_PrivKey) (w w' : World) (t : transport) :
  NewTransport L key w = (Ok t, w') ->
  privKey t = key /\
  peer_IDFromPrivateKey L key = Ok (localPeer t) /\
  generateConfig L key w = (Ok (tlsConf t), advance 4 4 w) /\
  VerifyPeerCertificate (tlsConf t) = None /\
  reuseUDP4 (transport_connManager t) <> reuseUDP6 (transport_connManager t) /\
  (forall network1 network2 r,
     getReuse (transport_connManager t) network1 = Ok r ->
     getReuse (transport_connManager t) network2 = Ok r ->
     network1 = network2) /\
  conns w' = conns w /\
  watchers w' = watchers w /\
  reuses w' = (2 + reuses w)%nat.
Proof.
  unfold NewTransport. intros H.
  apply bind_Ok_inv in H as (id & w0 & Hid & H).
  unfold lift in Hid. injection Hid as Hid <-.
  apply bind_Ok_inv in H as (cfg & w1 & Hcfg & H).
  pose proof (generateConfig_Ok _ _ _ _ _ Hcfg)
    as (hk & hostCert & ek & der & cert & _ & _ & _ & _ & Hc & ->).
  unfold newConnManager, newReuse, bind, ret in H. simpl in H.
  injection H as Ht Hw. subst t w'. simpl.
  split; [reflexivity|]. split; [exact Hid|]. split; [exact Hcfg|].
  split; [rewrite Hc; reflexivity|].
  split; [lia|].
  split; [|repeat split; reflexivity].
  intros network1 network2 r H1 H2. unfold getReuse in H1, H2. simpl in H1, H2.
  repeat case_decide; try discriminate; subst; try reflexivity;
    injection H1 as <-; injection H2 as E; lia.
Qed.

(** X11 on the mock host key. *)
Lemma NewTransport_Ok_witness :
  privKey Mock.dialer = Mock.hostKey /\
  reuseUDP4 (transport_connManager Mock.dialer)
    <> reuseUDP6 (transport_connManager Mock.dialer) /\
  conns Mock.world1 = conns Mock.world0.
Proof.
  destruct (NewTransport_Ok Mock.lib Mock.hostKey Mock.world0 Mock.world1 Mock.dialer
              eq_refl) as (Hk & _ & _ & _ & Hne & _ & Hconns & _).
  repeat split; assumption.
Defined.

(** ** Two peers that run this code *)

(** X12. Let a peer present the chain of the configuration that
    generateConfig gave it, let that chain verify and the public key of
    its host key unmarshal to [k]. Then a Dial that has obtained its
    reuseConn and whose handshake completes returns a connection exactly
    when the expected peer matches [k]: if it matches, the connection
    records [k] as remote public key and the expected peer as remote peer
    ID; if it does not, Dial returns the mismatch error, as the QUIC
    library words it, and has released the reuseConn. *)
Theorem Dial_to_generated_peer (L : Lib) (report : error -> error) (t : transport)
    (raddr : Multiaddr) (p : peer_ID) (w : World)
    (sk : ic_PrivKey) (wr wr' : World) (cfg : tls_Config) (s : quic_Session)
    (network host : string) (udpAddr addr : UDPAddr) (pconn : reuseConn) (w1 : World)
    (local : Multiaddr) :
  x509_faithful L ->
  generateConfig L sk wr = (Ok cfg, wr') ->
  manet_DialArgs L raddr = Ok (network, host) ->
  net_ResolveUDPAddr L network host = Ok udpAddr ->
  fromQuicMultiaddr L raddr = Ok addr ->
  connManager_Dial L (transport_connManager t) network udpAddr w = (Ok pconn, w1) ->
  toQuicMultiaddr L (laddr (conns w1 !!! pconn)) = Ok local ->
  exists key hostCert cert raw,
    fst (keyToCertificate L sk wr) = Ok (key, hostCert) /\
    map Certificate_chain (Certificates cfg) = [raw] /\
    parseChain L raw = Ok [cert; hostCert] /\
    forall k,
      x509_Verify L cert [hostCert] = None ->
      hostPubKey L key = Ok k ->
      Dial L report t (PeerPresents raw (Ok s)) raddr p w =
        if peer_MatchesPublicKey L p k
        then (Ok {| sess := s;
                    conn_transport := t;
                    conn_privKey := privKey t;
                    conn_localPeer := localPeer t;
                    localMultiaddr := local;
                    remotePubKey := Some k;
                    remotePeerID := p;
                    remoteMultiaddr := raddr |},
              set_watchers (watchers w1 ++ [(s, pconn)]) w1)
        else (Err (report "peer IDs don't match"), snd (DecreaseCount pconn w1)).
Proof.
  intros Hx Hcfg Hargs Hudp Haddr Hconn Hlocal.
  destruct (generateConfig_certificates _ _ _ _ _ Hx Hcfg)
    as (key & hostCert & ephemeralKey & cert & sn & pbmes & Hk & Hkey & Hchain & Hhost
        & Hcert & Hhparse & Hparse).
  assert (Hpc : parseChain L [Raw cert; Raw hostCert] = Ok [cert; hostCert])
    by (simpl; rewrite Hparse, Hhparse; reflexivity).
  exists key, hostCert, cert, [Raw cert; Raw hostCert].
  split; [rewrite Hk; reflexivity|].
  split; [rewrite Hchain; reflexivity|].
  split; [exact Hpc|].
  intros k Hv Hpk.
  assert (Hget : getRemotePubKey L [cert; hostCert] = Ok k).
  { rewrite getRemotePubKey_pair, Hv, <- Hpk. rewrite Hhost. simpl.
    destruct Hkey as [[_ (rk & _ & ->)]|[_ ->]]; reflexivity. }
  rewrite (Dial_with_conn _ _ _ _ _ _ _ _ _ _ _ _ _ Hargs Hudp Haddr Hconn), Hlocal.
  unfold quic_DialContext, with_VerifyPeerCertificate, dialVerifier.
  cbn [VerifyPeerCertificate]. rewrite Hpc, Hget.
  destruct (peer_MatchesPublicKey L p k); reflexivity.
Qed.

(** X12 on the mock: the host dials itself, expecting itself and expecting
    another peer. *)
Lemma Dial_to_generated_peer_witness :
  Dial Mock.lib Mock.report Mock.dialer Mock.handshake Mock.theAddr Mock.hostID Mock.world1
    = (Ok Mock.dialed, Mock.world2) /\
  fst (Dial Mock.lib Mock.report Mock.dialer Mock.handshake Mock.theAddr Mock.otherID
         Mock.world1) = Err "CRYPTO_ERROR: peer IDs don't match".
Proof.
  assert (H : forall p, exists key hostCert cert raw,
    fst (keyToCertificate Mock.lib Mock.hostKey Mock.world0) = Ok (key, hostCert) /\
    map Certificate_chain (Certificates Mock.config) = [raw] /\
    parseChain Mock.lib raw = Ok [cert; hostCert] /\
    forall k,
      x509_Verify Mock.lib cert [hostCert] = None ->
      hostPubKey Mock.lib key = Ok k ->
      Dial Mock.lib Mock.report Mock.dialer (PeerPresents raw (Ok 7%nat)) Mock.theAddr p
        Mock.world1 =
        if peer_MatchesPublicKey Mock.lib p k
        then (Ok {| sess := 7%nat;
                    conn_transport := Mock.dialer;
                    conn_privKey := privKey Mock.dialer;
                    conn_localPeer := localPeer Mock.dialer;
                    localMultiaddr := "/ip4/0.0.0.0/udp/4001/quic";
                    remotePubKey := Some k;
                    remotePeerID := p;
                    remoteMultiaddr := Mock.theAddr |},
              set_watchers
                (watchers (set_conns {[ 0%nat := Mock.socket 1 ]} Mock.world1)
                   ++ [(7%nat, 0%nat)])
                (set_conns {[ 0%nat := Mock.socket 1 ]} Mock.world1))
        else (Err (Mock.report "peer IDs don't match"),
              snd (DecreaseCount 0%nat
                     (set_conns {[ 0%nat := Mock.socket 1 ]} Mock.world1)))).
  { intros p.
    apply (Dial_to_generated_peer Mock.lib Mock.report Mock.dialer Mock.theAddr p
             Mock.world1 Mock.hostKey Mock.world0 (advance 4 4 Mock.world0) Mock.config
             7%nat "udp4" "127.0.0.1:4001" {| IP := "127.0.0.1"; Port := 4001 |}
             {| IP := "127.0.0.1"; Port := 4001 |} 0%nat
             (set_conns {[ 0%nat := Mock.socket 1 ]} Mock.world1)
             "/ip4/0.0.0.0/udp/4001/quic" mock_faithful);
      reflexivity. }
  split.
  - destruct (H Mock.hostID) as (key & hostCert & cert & raw & Hk & Hraw & Hpc & HD).
    injection Hk as <- <-. injection Hraw as <-.
    injection Hpc as <-.
    apply (HD {| pk_kind := KeyType_Ed25519; pk_raw := Mock.hostID |}); reflexivity.
  - destruct (H Mock.otherID) as (key & hostCert & cert & raw & Hk & Hraw & Hpc & HD).
    injection Hk as <- <-. injection Hraw as <-.
    injection Hpc as <-.
    unfold Mock.handshake, Mock.hostChain.
    rewrite (HD {| pk_kind := KeyType_Ed25519; pk_raw := Mock.hostID |});
      reflexivity.
Defined.



(** ** What the construction of a transport leaves alone *)

Lemma keyToCertificate_frame L sk w r w' :
  keyToCertificate L sk w = (r, w') ->
  conns w' = conns w /\ reuses w' = reuses w /\ watchers w' = watchers w.
Proof.
  unfold keyToCertificate, bind, with_rand, now, lift, ret, fail.
  cbn beta iota.
  destruct (rand_Int L _ _); cbn beta iota;
    [|intros [= <- <-]; repeat split; reflexivity].
  destruct (PrivKey_Bytes L sk); cbn beta iota;
    [|intros [= <- <-]; repeat split; reflexivity].
  destruct (proto_Unmarshal L _) as [pbmes|]; cbn beta iota;
    [|intros [= <- <-]; repeat split; reflexivity].
  destruct (pb_Type pbmes =? KeyType_RSA)%Z;
    [destruct (x509_ParsePKCS1PrivateKey L _)
    |destruct (pb_Type pbmes =? KeyType_Ed25519)%Z];
    cbn beta iota;
    try (destruct (x509_CreateCertificate L _ _ _ _ _); cbn beta iota;
         try (destruct (x509_ParseCertificate L _); cbn beta iota));
    intros [= <- <-]; repeat split; reflexivity.
Qed.

Lemma generateConfig_frame L sk w r w' :
  generateConfig L sk w = (r, w') ->
  conns w' = conns w /\ reuses w' = reuses w /\ watchers w' = watchers w.
Proof.
  unfold generateConfig, bind at 1.
  destruct (keyToCertificate L sk w) as [[[key hostCert]|e] w1] eqn:Hk.
  - destruct (keyToCertificate_frame _ _ _ _ _ Hk) as (Hc & Hr & Hw).
    unfold bind, with_rand, now, lift, ret. simpl.
    repeat (match goal with
            | |- context [match ?x with _ => _ end] => destruct x
            end; simpl);
      intros [= <- <-]; simpl; repeat split; assumption.
  - destruct (keyToCertificate_frame _ _ _ _ _ Hk) as (Hc & Hr & Hw).
    intros [= <- <-]. repeat split; assumption.
Qed.

(** X14. Whatever makes NewTransport fail (the peer identity, the host
    certificate, the ephemeral key or the ephemeral certificate), it
    returns no transport, creates no registry, binds no socket and starts
    no goroutine. *)
Theorem NewTransport_failure_creates_nothing (L : Lib) (key : ic_PrivKey)
    (w w' : World) (e : error) :
  NewTransport L key w = (Err e, w') ->
  (peer_IDFromPrivateKey L key = Err e \/ fst (generateConfig L key w) = Err e) /\
  reuses w' = reuses w /\
  conns w' = conns w /\
  watchers w' = watchers w.
Proof.
  unfold NewTransport, bind at 1, lift.
  destruct (peer_IDFromPrivateKey L key) as [id|e0].
  - unfold bind at 1.
    destruct (generateConfig L key w) as [[cfg|e1] w1] eqn:Hcfg.
    + unfold newConnManager, newReuse, bind, ret. simpl. discriminate.
    + intros [= <- <-].
      destruct (generateConfig_frame _ _ _ _ _ Hcfg) as (Hc & Hr & Hw).
      split; [right; reflexivity|]. repeat split; assumption.
  - intros [= <- <-]. split; [left; reflexivity|]. repeat split; reflexivity.
Qed.

(** X14 on the ECDSA key of the mock. *)
Lemma NewTransport_failure_creates_nothing_witness :
  reuses (snd (NewTransport Mock.lib Mock.ecdsaKey Mock.world0)) = 0%nat /\
  conns (snd (NewTransport Mock.lib Mock.ecdsaKey Mock.world0)) = ∅.
Proof.
  destruct (NewTransport_failure_creates_nothing Mock.lib Mock.ecdsaKey Mock.world0
              (advance 2 1 Mock.world0) "unsupported key type for TLS" eq_refl)
    as (_ & Hr & Hc & _).
  split; [exact Hr | exact Hc].
Defined.
